(** * computation_building_blocks: the deserialized computation IR

    A shallow embedding of
    [tensorflow_federated/python/core/impl/computation_building_blocks.py]:
    the nine building-block classes, their constructors with the checks
    they perform in source order, and their [__str__] renderings.

    Python objects handed to a constructor are values of [pyobj]; a
    constructor either returns the object it built or raises, and raising is
    the [Raise] case of [outcome].  *)

From Stdlib Require Import String Ascii List ZArith Lia Bool.
From Stdlib Require Import DecimalString HexadecimalString.
From Stdlib Require HexadecimalPos HexadecimalZ.
Import ListNotations.

Set Warnings "-register-all".

Local Open Scope string_scope.
Local Open Scope Z_scope.

(** ** Types of the language (instances of [types.Type])

    The module tells three things about a type apart: that it is a
    [types.FunctionType] (with a [parameter], which may be [None], and a
    [result]), that it is a [types.NamedTupleType] (with [elements], pairs
    of an optional name and a type), or that it is neither. *)

Inductive Type_ : Type :=
| TensorType (dtype : string)
| NamedTupleType (elements : list (option string * option Type_))
| FunctionType (parameter : option Type_) (result : option Type_).

(** ** Values the constructors receive *)

(** The optional [context] of a [Reference]: any object with [str()],
    [repr()] and a truth value. *)
Record Context : Type := mkContext {
  ctx_truth : bool;
  ctx_str : string;
  ctx_repr : string
}.

(** [pb.Computation]: the serialized type descriptor in its [type] field and
    the remaining bytes of the message. *)
Record Computation : Type := mkComputation {
  proto_type : string;
  proto_body : string
}.

(** The objects of the nine classes, each with the attributes its
    constructor assigns; [_type_signature] is the attribute of the base
    class. *)
Inductive Node : Type :=
| Reference (_type_signature : option Type_) (_name : string)
            (_context : option Context)
| Selection (_type_signature : option Type_) (_source : Node)
            (_name : option string) (_index : option Z)
| Tuple (_type_signature : option Type_)
        (_elements : list (option string * Node))
| Call (_type_signature : option Type_) (_function : Node)
       (_argument : option Node)
| Lambda (_type_signature : option Type_) (_parameter_name : string)
         (_parameter_type : Type_) (_result : Node)
| Block (_type_signature : option Type_) (_locals : list (string * Node))
        (_result : Node)
| Intrinsic (_type_signature : option Type_) (_uri : string)
| Data (_type_signature : option Type_) (_uri : string)
| CompiledComputation (_type_signature : option Type_) (_proto : Computation)
                      (_name : string).

(** A Python value as far as the constructors inspect it.  [PyInt] is an
    integer proper: [bool], which Python counts among the instances of
    [int], is not among the values modelled. *)
Inductive pyobj : Type :=
| PyNone
| PyStr (s : string)
| PyInt (i : Z)
| PyTuple (items : list pyobj)
| PyList (items : list pyobj)
| PyType (t : Type_)
| PyNode (n : Node)
| PyProto (p : Computation).

(** ** Exceptions

    One constructor per exception class the module raises, with the raise
    statement it comes from and the values formatted into its message;
    [BytesLikeRequired] is the [TypeError] that [zlib.adler32] raises when it
    is given text instead of bytes. *)

Inductive TypeErrorSite : Type :=
| NotAnInstance (value : pyobj) (expected : string)
| SourceNotNamedTuple (source_type : option Type_)
| UnexpectedTupleElement (e : pyobj)
| FuncNotFunctional (func_type : option Type_)
| ExpectsArgumentGotNone (parameter : Type_)
| IncompatibleArgument (parameter : Type_) (arg_type : option Type_)
| DoesNotExpectParameters (arg : pyobj)
| LambdaWithoutParameterType
| MalformedLocal (index : nat) (element : pyobj)
| CreatedWithoutType (uri : string)
| BytesLikeRequired (data : string).

Inductive ValueErrorSite : Type :=
| NeitherNameNorIndex
| BothNameAndIndex
| EmptySelectionName
| IndexDoesNotFit (index : Z) (last : Z)
| DuplicateName (name : string).

Inductive Exception : Type :=
| TypeError (site : TypeErrorSite)
| ValueError (site : ValueErrorSite)
| AttributeError (obj : pyobj) (attr : string)
| AssertionError
| ForeignError (what : string).

Inductive outcome (A : Type) : Type :=
| Ok (a : A)
| Raise (e : Exception).

Arguments Ok {A} a.
Arguments Raise {A} e.

Definition bind {A B : Type} (r : outcome A) (k : A -> outcome B) : outcome B :=
  match r with
  | Ok a => k a
  | Raise e => Raise e
  end.

Notation "x <- r ;; k" := (bind r (fun x => k))
  (at level 61, r at next level, right associativity).

(** The comprehension [[f(e) for e in l]]: left to right, the first raise
    ends it. *)
Fixpoint comprehension {A B : Type} (f : A -> outcome B) (l : list A)
  : outcome (list B) :=
  match l with
  | [] => Ok []
  | a :: l' => b <- f a ;; bs <- comprehension f l' ;; Ok (b :: bs)
  end.

(** ** The failure kinds of the specification

    The module raises [TypeError] and [ValueError] and has no class of its
    own for an incompatible type: those failures are [TypeError]s too. *)

Inductive ErrorKind : Type :=
| InvalidArgumentKind
| InvalidValueKind
| IncompatibleTypeKind.

Definition raised_as (k : ErrorKind) (e : Exception) : bool :=
  match k, e with
  | InvalidArgumentKind, TypeError _ => true
  | IncompatibleTypeKind, TypeError _ => true
  | InvalidValueKind, ValueError _ => true
  | _, _ => false
  end.

Definition fails_with {A : Type} (k : ErrorKind) (r : outcome A) : Prop :=
  exists e, r = Raise e /\ raised_as k e = true.

(** ** The collaborators outside this file *)

(** Modelled from the spec: [py_typecheck.check_type] is not in this file.
    It fails with a [TypeError] when the value is not of the required
    runtime category and otherwise lets the constructor go on; one function
    per category the module asks for. *)
Definition check_type_string_types (v : pyobj) : outcome string :=
  match v with
  | PyStr s => Ok s
  | _ => Raise (TypeError (NotAnInstance v "string_types"))
  end.

Definition check_type_ComputationBuildingBlock (v : pyobj) : outcome Node :=
  match v with
  | PyNode n => Ok n
  | _ => Raise (TypeError (NotAnInstance v "ComputationBuildingBlock"))
  end.

Definition check_type_int (v : pyobj) : outcome Z :=
  match v with
  | PyInt i => Ok i
  | _ => Raise (TypeError (NotAnInstance v "int"))
  end.

Definition check_type_Computation (v : pyobj) : outcome Computation :=
  match v with
  | PyProto p => Ok p
  | _ => Raise (TypeError (NotAnInstance v "pb.Computation"))
  end.

(** Modelled from the spec: [types.to_type] is not in this file.  A type
    specification is here either [None] or already an instance of
    [types.Type], and the normalisation takes both as given; the
    constructors that must not receive [None] test for it themselves before
    they call it (Lambda, Intrinsic, Data).  The shorthand forms it also
    converts (lists, dtypes) are left out. *)
Definition to_type (spec : option Type_) : option Type_ := spec.

(** Modelled from the spec: [anonymous_tuple.AnonymousTuple.__init__] is
    not in this file.  The ordered container of (optional name, value)
    pairs; construction fails with a [ValueError] if two entries share a
    non-null name. *)
Fixpoint first_duplicate (seen : list string) (names : list (option string))
  : option string :=
  match names with
  | [] => None
  | None :: rest => first_duplicate seen rest
  | Some n :: rest =>
      if existsb (String.eqb n) seen then Some n
      else first_duplicate (n :: seen) rest
  end.

Definition AnonymousTuple_init {A : Type} (elements : list (option string * A))
  : outcome (list (option string * A)) :=
  match first_duplicate [] (map fst elements) with
  | Some n => Raise (ValueError (DuplicateName n))
  | None => Ok elements
  end.

(** An entry of the list handed to [types.NamedTupleType]: a
    [(name, type)] pair or a bare type. *)
Inductive TypeElement : Type :=
| NamedElement (name : string) (t : option Type_)
| BareElement (t : option Type_).

(** Modelled from the spec: the constructor of [types.NamedTupleType] is not
    in this file.  The named-tuple type is built on the same container: a
    pair gives a named field, a bare type an unnamed one, in the order
    given. *)
Definition NamedTupleType_init (elements : list TypeElement) : outcome Type_ :=
  fields <- AnonymousTuple_init
              (map (fun e => match e with
                             | NamedElement n t => (Some n, to_type t)
                             | BareElement t => (None, to_type t)
                             end) elements) ;;
  Ok (NamedTupleType fields).

(** Modelled from the spec: [type_utils.get_named_tuple_element_type] is not
    in this file.  Field lookup by name on a named-tuple type; it fails,
    inside that module, if the field does not exist. *)
Fixpoint lookup_field (elements : list (option string * option Type_))
  (name : string) : option (option Type_) :=
  match elements with
  | [] => None
  | (Some n, t) :: rest =>
      if String.eqb name n then Some t else lookup_field rest name
  | (None, _) :: rest => lookup_field rest name
  end.

Definition get_named_tuple_element_type
  (elements : list (option string * option Type_)) (name : string)
  : outcome (option Type_) :=
  match lookup_field elements name with
  | Some t => Ok t
  | None => Raise (ForeignError "get_named_tuple_element_type")
  end.

(** What the type system and the serialization layer decide, taken as
    given: [Type.is_assignable_from], [type_serialization.deserialize_type]
    and the [repr()] of a [pb.Computation]. *)
Class TypeCapability : Type := {
  is_assignable_from : Type_ -> option Type_ -> bool;
  deserialize_type : string -> outcome (option Type_);
  repr_Computation : Computation -> string
}.

(** ** zlib.adler32 and the format [{:x}] *)

Module Adler32.

Definition BASE : Z := 65521.

Definition step (ab : Z * Z) (c : ascii) : Z * Z :=
  let a := (fst ab + Z.of_N (N_of_ascii c)) mod BASE in
  (a, (snd ab + a) mod BASE).

Definition sums (data : string) : Z * Z :=
  fold_left step (list_ascii_of_string data) (1, 0).

(** The checksum as an unsigned 32-bit number. *)
Definition unsigned (data : string) : Z :=
  Z.lor (Z.shiftl (snd (sums data)) 16) (fst (sums data)).

(** [zlib.adler32] of Python 2 returns it as a signed 32-bit integer. *)
Definition adler32 (data : string) : Z :=
  let u := unsigned data in
  if u <? 2 ^ 31 then u else u - 2 ^ 32.

End Adler32.

(** The interpreter the module runs on.  It decides one thing here: what
    [repr()] returns, a byte string on Python 2 and a string of text on
    Python 3. *)
Inductive Interpreter : Type :=
| Python2
| Python3.

(** [zlib.adler32(data)] for the [data] that [repr()] returned.  On
    Python 2 it is the checksum of the byte string, as a signed 32-bit
    integer; on Python 3 [zlib.adler32] refuses text with a [TypeError]. *)
Definition zlib_adler32 (py : Interpreter) (data : string) : outcome Z :=
  match py with
  | Python2 => Ok (Adler32.adler32 data)
  | Python3 => Raise (TypeError (BytesLikeRequired data))
  end.

(** ['{:x}'.format(n)]: lowercase hexadecimal, no prefix, ["0"] for zero. *)
Definition format_x (n : Z) : string :=
  HexadecimalString.NilZero.string_of_int (Z.to_hex_int n).

(** ['{}'.format(i)] for an integer. *)
Definition format_int (i : Z) : string :=
  DecimalString.NilZero.string_of_int (Z.to_int i).


(** ** The classes *)

(** [ComputationBuildingBlock.__init__]: the value stored in
    [_type_signature]. *)
Definition ComputationBuildingBlock_init (type_spec : option Type_)
  : option Type_ :=
  to_type type_spec.

(** The property [type_signature]. *)
Definition type_signature (n : Node) : option Type_ :=
  match n with
  | Reference t _ _ => t
  | Selection t _ _ _ => t
  | Tuple t _ => t
  | Call t _ _ => t
  | Lambda t _ _ _ => t
  | Block t _ _ => t
  | Intrinsic t _ => t
  | Data t _ => t
  | CompiledComputation t _ _ => t
  end.

(** [Reference.__init__(name, type_spec, context=None)] *)
Definition Reference_init (name : pyobj) (type_spec : option Type_)
  (context : option Context) : outcome Node :=
  name <- check_type_string_types name ;;
  Ok (Reference (ComputationBuildingBlock_init type_spec) name context).

Definition is_None (v : pyobj) : bool :=
  match v with
  | PyNone => true
  | _ => false
  end.

(** [Selection.__init__(source, name=None, index=None)]; [str(name)]
    leaves a byte string as it is. *)
Definition Selection_init (source name index : pyobj) : outcome Node :=
  if is_None name && is_None index then
    Raise (ValueError NeitherNameNorIndex)
  else if negb (is_None name) && negb (is_None index) then
    Raise (ValueError BothNameAndIndex)
  else
    source <- check_type_ComputationBuildingBlock source ;;
    match type_signature source with
    | Some (NamedTupleType elements) =>
        if negb (is_None name) then
          name <- check_type_string_types name ;;
          if String.eqb name "" then Raise (ValueError EmptySelectionName)
          else
            t <- get_named_tuple_element_type elements name ;;
            Ok (Selection (ComputationBuildingBlock_init t) source
                          (Some name) None)
        else
          index <- check_type_int index ;;
          if (index >=? 0) && (index <? Z.of_nat (length elements)) then
            match nth_error elements (Z.to_nat index) with
            | Some element =>
                Ok (Selection (ComputationBuildingBlock_init (snd element))
                              source None (Some index))
            | None => Raise (ForeignError "IndexError")
            end
          else
            Raise (ValueError
                     (IndexDoesNotFit index (Z.of_nat (length elements) - 1)))
    | source_type => Raise (TypeError (SourceNotNamedTuple source_type))
    end.

(** [Selection.name] and [Selection.index]; [None] on the other classes
    stands for the attribute they do not have. *)
Definition Selection_name (n : Node) : option string :=
  match n with
  | Selection _ _ name _ => name
  | _ => None
  end.

Definition Selection_index (n : Node) : option Z :=
  match n with
  | Selection _ _ _ index => index
  | _ => None
  end.

(** The local function [_map_element] of [Tuple.__init__]. *)
Definition _map_element (e : pyobj) : outcome (option string * Node) :=
  match e with
  | PyNode n => Ok (None, n)
  | PyTuple [PyNone; v] =>
      v <- check_type_ComputationBuildingBlock v ;; Ok (None, v)
  | PyTuple [PyStr s; v] =>
      v <- check_type_ComputationBuildingBlock v ;; Ok (Some s, v)
  | _ => Raise (TypeError (UnexpectedTupleElement e))
  end.

(** The entry of the list given to [types.NamedTupleType] for one element:
    [(e[0], e[1].type_signature) if e[0] else e[1].type_signature]. *)
Definition type_element (e : option string * Node) : TypeElement :=
  match fst e with
  | Some s =>
      if negb (String.eqb s "") then NamedElement s (type_signature (snd e))
      else BareElement (type_signature (snd e))
  | None => BareElement (type_signature (snd e))
  end.

(** [Tuple.__init__(elements)] *)
Definition Tuple_init (elements : list pyobj) : outcome Node :=
  elements <- comprehension _map_element elements ;;
  t <- NamedTupleType_init (map type_element elements) ;;
  elements <- AnonymousTuple_init elements ;;
  Ok (Tuple (ComputationBuildingBlock_init (Some t)) elements).

(** [anonymous_tuple.to_elements] on a [Tuple]; the empty list on the other
    classes stands for the attribute they do not have. *)
Definition Tuple_elements (n : Node) : list (option string * Node) :=
  match n with
  | Tuple _ elements => elements
  | _ => []
  end.

Section WithCapability.

Context {cap : TypeCapability}.

(** [Call.__init__(func, arg=None)] *)
Definition Call_init (func arg : pyobj) : outcome Node :=
  func <- check_type_ComputationBuildingBlock func ;;
  match type_signature func with
  | Some (FunctionType parameter result) =>
      argument <-
        match parameter with
        | Some parameter =>
            match arg with
            | PyNone => Raise (TypeError (ExpectsArgumentGotNone parameter))
            | PyNode a =>
                if negb (is_assignable_from parameter (type_signature a))
                then Raise (TypeError (IncompatibleArgument
                                         parameter (type_signature a)))
                else Ok (Some a)
            | _ => Raise (AttributeError arg "type_signature")
            end
        | None =>
            if negb (is_None arg)
            then Raise (TypeError (DoesNotExpectParameters arg))
            else Ok None
        end ;;
      let t := ComputationBuildingBlock_init result in
      match argument, parameter with
      | Some _, Some _ | None, None => Ok (Call t func argument)
      | _, _ => Raise AssertionError
      end
  | func_type => Raise (TypeError (FuncNotFunctional func_type))
  end.

Variable py : Interpreter.

(** [CompiledComputation.__init__(proto, name=None)]; the checksum is
    computed only when no name was given. *)
Definition CompiledComputation_init (proto name : pyobj) : outcome Node :=
  proto <- check_type_Computation proto ;;
  name <- (if negb (is_None name)
           then name <- check_type_string_types name ;; Ok (Some name)
           else Ok None) ;;
  t <- deserialize_type (proto_type proto) ;;
  name <- match name with
          | Some name => Ok name
          | None =>
              checksum <- zlib_adler32 py (repr_Computation proto) ;;
              Ok (format_x (Z.land checksum 0xFFFFFFFF))
          end ;;
  Ok (CompiledComputation (ComputationBuildingBlock_init t) proto name).

End WithCapability.

(** [Lambda.__init__(parameter_name, parameter_type, result)] *)
Definition Lambda_init (parameter_name : pyobj) (parameter_type : option Type_)
  (result : pyobj) : outcome Node :=
  parameter_name <- check_type_string_types parameter_name ;;
  match parameter_type with
  | None => Raise (TypeError LambdaWithoutParameterType)
  | Some _ =>
      match to_type parameter_type with
      | None => Raise AssertionError
      | Some parameter_type =>
          result <- check_type_ComputationBuildingBlock result ;;
          Ok (Lambda
                (ComputationBuildingBlock_init
                   (Some (FunctionType (Some parameter_type)
                                       (type_signature result))))
                parameter_name parameter_type result)
      end
  end.

(** The loop of [Block.__init__] over [enumerate(local_symbols)], from
    position [index] on. *)
Fixpoint Block_locals (index : nat) (local_symbols : list pyobj)
  : outcome (list (string * Node)) :=
  match local_symbols with
  | [] => Ok []
  | element :: rest =>
      match element with
      | PyTuple [PyStr name; value] =>
          value <- check_type_ComputationBuildingBlock value ;;
          updated_locals <- Block_locals (S index) rest ;;
          Ok ((name, value) :: updated_locals)
      | _ => Raise (TypeError (MalformedLocal index element))
      end
  end.

(** [Block.__init__(local_symbols, result)] *)
Definition Block_init (local_symbols : list pyobj) (result : pyobj)
  : outcome Node :=
  updated_locals <- Block_locals 0 local_symbols ;;
  result <- check_type_ComputationBuildingBlock result ;;
  Ok (Block (ComputationBuildingBlock_init (type_signature result))
            updated_locals result).

(** [Intrinsic.__init__(uri, type_spec)] *)
Definition Intrinsic_init (uri : pyobj) (type_spec : option Type_)
  : outcome Node :=
  uri <- check_type_string_types uri ;;
  match type_spec with
  | None => Raise (TypeError (CreatedWithoutType uri))
  | Some _ =>
      Ok (Intrinsic (ComputationBuildingBlock_init (to_type type_spec)) uri)
  end.

(** [Data.__init__(uri, type_spec)] *)
Definition Data_init (uri : pyobj) (type_spec : option Type_) : outcome Node :=
  uri <- check_type_string_types uri ;;
  match type_spec with
  | None => Raise (TypeError (CreatedWithoutType uri))
  | Some _ => Ok (Data (ComputationBuildingBlock_init (to_type type_spec)) uri)
  end.

(** ** Rendering: [__str__] *)

(** Modelled from the spec: [anonymous_tuple.AnonymousTuple.__str__] is not
    in this file.  The canonical form [<name=val, val, ...>] over the
    already rendered values, unnamed elements bare. *)
Definition AnonymousTuple_str (elements : list (option string * string))
  : string :=
  "<" ++
  String.concat ", "
    (map (fun e => match fst e with
                   | Some name => name ++ "=" ++ snd e
                   | None => snd e
                   end) elements) ++
  ">".

(** [str(node)], class by class. *)
Fixpoint str (n : Node) : string :=
  match n with
  | Reference _ name context =>
      match context with
      | Some c => if ctx_truth c then name ++ "@" ++ ctx_str c else name
      | None => name
      end
  | Selection _ source name index =>
      match name with
      | Some name => str source ++ "." ++ name
      | None =>
          str source ++ "[" ++
          match index with
          | Some i => format_int i
          | None => "None"
          end ++ "]"
      end
  | Tuple _ elements =>
      AnonymousTuple_str (map (fun e => (fst e, str (snd e))) elements)
  | Call _ function argument =>
      match argument with
      | Some argument => str function ++ "(" ++ str argument ++ ")"
      | None => str function ++ "()"
      end
  | Lambda _ parameter_name _ result =>
      "(" ++ parameter_name ++ " -> " ++ str result ++ ")"
  | Block _ locals result =>
      "(let " ++
      String.concat "," (map (fun kv => fst kv ++ "=" ++ str (snd kv)) locals)
      ++ " in " ++ str result ++ ")"
  | Intrinsic _ uri => uri
  | Data _ uri => uri
  | CompiledComputation _ _ name => "comp(" ++ name ++ ")"
  end.

(** [Call.function] and [Call.argument]. *)
Definition Call_function (n : Node) : option Node :=
  match n with
  | Call _ function _ => Some function
  | _ => None
  end.

Definition Call_argument (n : Node) : option Node :=
  match n with
  | Call _ _ argument => argument
  | _ => None
  end.

(** The attribute [_name] of a [Reference] and of a [CompiledComputation];
    [None] stands for the attribute the other classes do not have. *)
Definition Reference_name (n : Node) : option string :=
  match n with
  | Reference _ name _ => Some name
  | _ => None
  end.

Definition CompiledComputation_name (n : Node) : option string :=
  match n with
  | CompiledComputation _ _ name => Some name
  | _ => None
  end.

(** The names and the types of the fields of a named-tuple type, in
    order. *)
Definition field_names (t : option Type_) : list (option string) :=
  match t with
  | Some (NamedTupleType elements) => map fst elements
  | _ => []
  end.

Definition field_types (t : option Type_) : list (option Type_) :=
  match t with
  | Some (NamedTupleType elements) => map snd elements
  | _ => []
  end.

(** The non-null names of a sequence of optional names. *)
Fixpoint named (names : list (option string)) : list string :=
  match names with
  | [] => []
  | Some n :: rest => n :: named rest
  | None :: rest => named rest
  end.

(** A numeral in lowercase hexadecimal: at least one character, and
    lowercase hexadecimal digits only. *)
Definition is_lower_hex_digit (c : ascii) : bool :=
  existsb (Ascii.eqb c) (list_ascii_of_string "0123456789abcdef").

Definition lower_hex (s : string) : bool :=
  negb (String.eqb s "") &&
  forallb is_lower_hex_digit (list_ascii_of_string s).

(** The Python list of 2-tuples [(name, value)] for typed locals. *)
Definition locals_as_pyobj (locals : list (string * Node)) : list pyobj :=
  map (fun kv => PyTuple [PyStr (fst kv); PyNode (snd kv)]) locals.

(** The test of [Block.__init__] on an element of [local_symbols]: a tuple
    of two items whose first is a string. *)
Definition is_local_declaration (element : pyobj) : bool :=
  match element with
  | PyTuple [PyStr _; _] => true
  | _ => false
  end.

(** The field derived in the type of a tuple for one of its elements. *)
Definition field_of (e : option string * Node) : option string * option Type_ :=
  match type_element e with
  | NamedElement n t => (Some n, to_type t)
  | BareElement t => (None, to_type t)
  end.

(** Reading a string written by [{:x}] back as a number, [int(s, 16)]. *)
Definition parse_x (s : string) : option Z :=
  option_map Z.of_hex_int (HexadecimalString.NilZero.int_of_string s).

(** The property [Block.locals]; the empty list on the other classes stands
    for the attribute they do not have. *)
Definition Block_locals_property (n : Node) : list (string * Node) :=
  match n with
  | Block _ locals _ => locals
  | _ => []
  end.

Section Trees.

Context {cap : TypeCapability}.
Variable py : Interpreter.

(** The nodes that come out of the constructors alone: each is the result
    of one constructor applied to children that came out of the
    constructors. *)
Inductive Built : Node -> Prop :=
| Built_Reference name type_spec context n :
    Reference_init name type_spec context = Ok n -> Built n
| Built_Selection source name index n :
    Built source ->
    Selection_init (PyNode source) name index = Ok n -> Built n
| Built_Tuple elements n :
    Tuple_init elements = Ok n ->
    (forall e, In e (Tuple_elements n) -> Built (snd e)) -> Built n
| Built_Call func arg n :
    Built func -> (forall a, arg = PyNode a -> Built a) ->
    Call_init (PyNode func) arg = Ok n -> Built n
| Built_Lambda parameter_name parameter_type result n :
    Built result ->
    Lambda_init parameter_name parameter_type (PyNode result) = Ok n ->
    Built n
| Built_Block local_symbols result n :
    Built result ->
    Block_init local_symbols (PyNode result) = Ok n ->
    (forall kv, In kv (Block_locals_property n) -> Built (snd kv)) -> Built n
| Built_Intrinsic uri type_spec n :
    Intrinsic_init uri type_spec = Ok n -> Built n
| Built_Data uri type_spec n :
    Data_init uri type_spec = Ok n -> Built n
| Built_CompiledComputation proto name n :
    CompiledComputation_init py proto name = Ok n -> Built n.

(** A tree in which the type of every node is derived from its children: a
    selection has the type of the field or element it selects from a source
    of named-tuple type; the type of a tuple is a named-tuple type with one
    field per element, in order, each with the type of the child and with
    the name of the element, except that an element whose name is the empty
    string has an unnamed field, and the non-null names of the elements
    differ; a call has the result type of its function, with an argument
    exactly when the function has a parameter, assignable to it; a lambda
    has the function type from its parameter type to the type of its body; a
    block has the type of its result; an intrinsic and a datum have a
    type. *)
Inductive Consistent : Node -> Prop :=
| Consistent_Reference t name context : Consistent (Reference t name context)
| Consistent_Selection_name t source elements s :
    Consistent source ->
    type_signature source = Some (NamedTupleType elements) ->
    s <> "" -> lookup_field elements s = Some t ->
    Consistent (Selection t source (Some s) None)
| Consistent_Selection_index source elements i e :
    Consistent source ->
    type_signature source = Some (NamedTupleType elements) ->
    0 <= i -> nth_error elements (Z.to_nat i) = Some e ->
    Consistent (Selection (snd e) source None (Some i))
| Consistent_Tuple fields elements :
    (forall e, In e elements -> Consistent (snd e)) ->
    NoDup (named (map fst elements)) ->
    map snd fields = map (fun e => type_signature (snd e)) elements ->
    map fst fields = map (fun e => match fst e with
                                   | Some "" => None
                                   | name => name
                                   end) elements ->
    Consistent (Tuple (Some (NamedTupleType fields)) elements)
| Consistent_Call_argument R f p a :
    Consistent f -> Consistent a ->
    type_signature f = Some (FunctionType (Some p) R) ->
    is_assignable_from p (type_signature a) = true ->
    Consistent (Call R f (Some a))
| Consistent_Call R f :
    Consistent f -> type_signature f = Some (FunctionType None R) ->
    Consistent (Call R f None)
| Consistent_Lambda name T r :
    Consistent r ->
    Consistent (Lambda (Some (FunctionType (Some T) (type_signature r)))
                       name T r)
| Consistent_Block locals r :
    (forall kv, In kv locals -> Consistent (snd kv)) -> Consistent r ->
    Consistent (Block (type_signature r) locals r)
| Consistent_Intrinsic t uri : Consistent (Intrinsic (Some t) uri)
| Consistent_Data t uri : Consistent (Data (Some t) uri)
| Consistent_CompiledComputation t proto name :
    Consistent (CompiledComputation t proto name).

End Trees.

(** ** Concrete values used below *)

Module Examples.

Definition int32 : Type_ := TensorType "int32".
Definition bool_ : Type_ := TensorType "bool".

(** An assignability that accepts exactly an equal dtype, a
    deserialization that yields [int32], and the concatenation of the two
    fields of the message as its [repr()]. *)
Definition cap : TypeCapability := {|
  is_assignable_from := fun p a =>
    match p, a with
    | TensorType x, Some (TensorType y) => String.eqb x y
    | _, _ => false
    end;
  deserialize_type := fun _ => Ok (Some int32);
  repr_Computation := fun p => proto_type p ++ proto_body p
|}.

Definition r_int : Node := Reference (Some int32) "r" None.
Definition r_bool : Node := Reference (Some bool_) "b" None.
Definition f_int : Node :=
  Reference (Some (FunctionType (Some int32) (Some bool_))) "f" None.
Definition f_nullary : Node :=
  Reference (Some (FunctionType None (Some bool_))) "g" None.
Definition pair_xy : Type_ :=
  NamedTupleType [(Some "x", Some int32); (None, Some bool_)].
Definition src : Node := Reference (Some pair_xy) "s" None.
Definition wiki : Computation := mkComputation "Wiki" "pedia".

(** A tuple [<x=r, b>] as [Tuple.__init__] builds it, and a lambda. *)
Definition tup : Node :=
  Tuple (Some pair_xy) [(Some "x", r_int); (None, r_bool)].
Definition lam : Node :=
  Lambda (Some (FunctionType (Some int32) (Some bool_))) "x" int32 r_bool.

(** A capability whose deserialization fails. *)
Definition failing_cap : TypeCapability := {|
  is_assignable_from := fun _ _ => false;
  deserialize_type := fun _ => Raise (ForeignError "deserialize_type");
  repr_Computation := fun p => proto_body p
|}.

End Examples.

(** * Properties *)

Ltac by_kind := eexists; split; [reflexivity | reflexivity].

(** ** Call *)

(** C1. A call through a function node of type [(P -> R)]: with [P]
    non-null and an argument whose type is assignable to [P] the
    construction succeeds and the call has type [R]; with a non-assignable
    argument it fails with the incompatible-type [TypeError]; with [P] null
    and any non-null argument it fails with a [TypeError]; with [P] null and
    no argument it succeeds with type [R]. *)
Theorem Call_init_function_type {cap : TypeCapability}
  (func : Node) (P R : option Type_) :
  type_signature func = Some (FunctionType P R) ->
  (forall p a, P = Some p ->
     is_assignable_from p (type_signature a) = true ->
     Call_init (PyNode func) (PyNode a) = Ok (Call R func (Some a)) /\
     type_signature (Call R func (Some a)) = R) /\
  (forall p a, P = Some p ->
     is_assignable_from p (type_signature a) = false ->
     Call_init (PyNode func) (PyNode a)
       = Raise (TypeError (IncompatibleArgument p (type_signature a))) /\
     fails_with IncompatibleTypeKind (Call_init (PyNode func) (PyNode a))) /\
  (forall arg, P = None -> arg <> PyNone ->
     Call_init (PyNode func) arg
       = Raise (TypeError (DoesNotExpectParameters arg)) /\
     fails_with InvalidArgumentKind (Call_init (PyNode func) arg)) /\
  (P = None ->
     Call_init (PyNode func) PyNone = Ok (Call R func None) /\
     type_signature (Call R func None) = R).
Proof.
  intros Hf. unfold Call_init; cbn [check_type_ComputationBuildingBlock bind].
  rewrite Hf. repeat split.
  - subst P; cbn. rewrite H0; reflexivity.
  - subst P; cbn. rewrite H0; reflexivity.
  - unfold fails_with. subst P; cbn. rewrite H0; cbn. by_kind.
  - subst P. destruct arg; try contradiction; reflexivity.
  - unfold fails_with. subst P.
    destruct arg; try contradiction; cbn; by_kind.
  - subst P; reflexivity.
Qed.

Lemma Call_init_function_type_witness :
  (@Call_init Examples.cap (PyNode Examples.f_int) (PyNode Examples.r_int)
     = Ok (Call (Some Examples.bool_) Examples.f_int (Some Examples.r_int))) /\
  fails_with IncompatibleTypeKind
    (@Call_init Examples.cap (PyNode Examples.f_int) (PyNode Examples.r_bool)) /\
  fails_with InvalidArgumentKind
    (@Call_init Examples.cap (PyNode Examples.f_nullary)
       (PyNode Examples.r_bool)) /\
  (@Call_init Examples.cap (PyNode Examples.f_nullary) PyNone
     = Ok (Call (Some Examples.bool_) Examples.f_nullary None)).
Proof.
  destruct (@Call_init_function_type Examples.cap Examples.f_int
              (Some Examples.int32) (Some Examples.bool_) eq_refl)
    as [Hok [Hbad _]].
  destruct (@Call_init_function_type Examples.cap Examples.f_nullary
              None (Some Examples.bool_) eq_refl)
    as [_ [_ [Hextra Hnone]]].
  split; [| split; [| split]].
  - exact (proj1 (Hok Examples.int32 Examples.r_int eq_refl eq_refl)).
  - exact (proj2 (Hbad Examples.int32 Examples.r_bool eq_refl eq_refl)).
  - refine (proj2 (Hextra (PyNode Examples.r_bool) eq_refl _)). discriminate.
  - exact (proj1 (Hnone eq_refl)).
Defined.

(** C8. The string of a call is the string of its function followed by the
    string of its argument in parentheses, or by [()] when it has no
    argument. *)
Theorem Call_str (t : option Type_) (function argument : Node) :
  str (Call t function (Some argument))
    = str function ++ "(" ++ str argument ++ ")" /\
  str (Call t function None) = str function ++ "()".
Proof.
  split; reflexivity.
Qed.

(** ** Lambda *)

(** C5. A lambda over a text name, a non-null parameter type [T] and a
    result node has the function type from [T] to the type of the result;
    with a null parameter type the construction fails with a [TypeError],
    whatever the other two arguments are. *)
Theorem Lambda_init_type :
  (forall (parameter_name : string) (T : Type_) (result : Node),
     exists n,
       Lambda_init (PyStr parameter_name) (Some T) (PyNode result) = Ok n /\
       type_signature n
         = Some (FunctionType (Some T) (type_signature result))) /\
  (forall parameter_name result : pyobj,
     fails_with InvalidArgumentKind
       (Lambda_init parameter_name None result)).
Proof.
  split.
  - intros. eexists; split; reflexivity.
  - intros. unfold fails_with, Lambda_init.
    destruct parameter_name; cbn; by_kind.
Qed.

(** ** Block *)

Lemma Block_locals_well_formed (locals : list (string * Node)) (index : nat) :
  Block_locals index (locals_as_pyobj locals) = Ok locals.
Proof.
  revert index; induction locals as [| [k v] rest IH]; intros index.
  - reflexivity.
  - cbn. rewrite IH. reflexivity.
Qed.

(** The loop accepts no other sequence: what it returns is the sequence it
    was given. *)
Lemma Block_locals_accepted (local_symbols : list pyobj) (index : nat)
  (locals : list (string * Node)) :
  Block_locals index local_symbols = Ok locals ->
  local_symbols = locals_as_pyobj locals.
Proof.
  revert index locals.
  induction local_symbols as [| element rest IH]; intros index locals H.
  - cbn in H. injection H as <-. reflexivity.
  - cbn in H.
    destruct element as [| | | [| [| name | | | | | |] [| value [|]]] | | | |];
      try discriminate.
    destruct value; cbn in H; try discriminate.
    destruct (Block_locals (S index) rest) as [updated |] eqn:E; cbn in H;
      try discriminate.
    injection H as <-. cbn. f_equal. exact (IH _ _ E).
Qed.

(** C6. A block over well-formed locals, the empty sequence included, and a
    result node is constructed, keeps the locals in order, and has the type
    of its result whatever the locals are. *)
Theorem Block_init_type (locals : list (string * Node)) (result : Node) :
  Block_init (locals_as_pyobj locals) (PyNode result)
    = Ok (Block (type_signature result) locals result) /\
  type_signature (Block (type_signature result) locals result)
    = type_signature result.
Proof.
  unfold Block_init. rewrite Block_locals_well_formed. split; reflexivity.
Qed.

(** ** Selection *)

Lemma is_None_false (v : pyobj) : v <> PyNone -> is_None v = false.
Proof.
  destruct v; intros Hv; try reflexivity. contradiction.
Qed.

(** C9. A selection given neither a name nor an index, or given both,
    fails with a [ValueError], whatever the source; a selection that is
    constructed retains exactly the one it was given and holds [None] for
    the other. *)
Theorem Selection_init_name_xor_index :
  (forall source,
     Selection_init source PyNone PyNone
       = Raise (ValueError NeitherNameNorIndex) /\
     fails_with InvalidValueKind (Selection_init source PyNone PyNone)) /\
  (forall source name index, name <> PyNone -> index <> PyNone ->
     Selection_init source name index = Raise (ValueError BothNameAndIndex) /\
     fails_with InvalidValueKind (Selection_init source name index)) /\
  (forall source name index n, Selection_init source name index = Ok n ->
     (exists s, name = PyStr s /\ index = PyNone /\
                Selection_name n = Some s /\ Selection_index n = None) \/
     (exists i, name = PyNone /\ index = PyInt i /\
                Selection_name n = None /\ Selection_index n = Some i)).
Proof.
  split; [| split].
  - intros source. split; [reflexivity |]. unfold fails_with; cbn. by_kind.
  - intros source name index Hn Hi.
    assert (E : Selection_init source name index
                = Raise (ValueError BothNameAndIndex)).
    { unfold Selection_init.
      rewrite (is_None_false _ Hn), (is_None_false _ Hi). reflexivity. }
    split; [exact E |]. unfold fails_with. rewrite E. by_kind.
  - intros source name index n. unfold Selection_init.
    destruct (is_None name) eqn:En, (is_None index) eqn:Ei; cbn;
      try discriminate.
    + destruct name; try discriminate.
      destruct source; cbn; try discriminate.
      destruct (type_signature n0) as [[d | elements | p r] |];
        try discriminate.
      destruct index; cbn; try discriminate.
      destruct ((i >=? 0) && (i <? Z.of_nat (length elements)));
        try discriminate.
      destruct (nth_error elements (Z.to_nat i)); try discriminate.
      intros H; injection H as <-. right. exists i. repeat split.
    + destruct index; try discriminate.
      destruct source; cbn; try discriminate.
      destruct (type_signature n0) as [[d | elements | p r] |];
        try discriminate.
      destruct name; cbn; try discriminate.
      destruct (String.eqb s ""); try discriminate.
      destruct (get_named_tuple_element_type elements s); cbn;
        try discriminate.
      intros H; injection H as <-. left. exists s. repeat split.
Qed.

Lemma Selection_init_name_xor_index_witness :
  fails_with InvalidValueKind
    (Selection_init (PyNode Examples.src) (PyStr "x") (PyInt 0)) /\
  ((exists s, PyStr "x" = PyStr s /\ PyNone = PyNone /\
      Selection_name
        (Selection (Some Examples.int32) Examples.src (Some "x") None)
        = Some s /\
      Selection_index
        (Selection (Some Examples.int32) Examples.src (Some "x") None)
        = None) \/
   (exists i, PyStr "x" = PyNone /\ PyNone = PyInt i /\
      Selection_name
        (Selection (Some Examples.int32) Examples.src (Some "x") None)
        = None /\
      Selection_index
        (Selection (Some Examples.int32) Examples.src (Some "x") None)
        = Some i)).
Proof.
  destruct Selection_init_name_xor_index as [_ [Hboth Hone]].
  split.
  - refine (proj2 (Hboth (PyNode Examples.src) (PyStr "x") (PyInt 0) _ _));
      discriminate.
  - exact (Hone (PyNode Examples.src) (PyStr "x") PyNone _ eq_refl).
Defined.

(** C2 as stated fails: a named-tuple type can have a field whose name is
    the empty string, and selecting by the empty name is refused before the
    type is consulted. *)
Lemma Selection_init_by_name_counterexample :
  ~ (forall source elements name t,
       type_signature source = Some (NamedTupleType elements) ->
       lookup_field elements name = Some t ->
       exists n, Selection_init (PyNode source) (PyStr name) PyNone = Ok n /\
                 type_signature n = t).
Proof.
  intros claim.
  destruct (claim (Reference
                     (Some (NamedTupleType [(Some "", Some Examples.int32)]))
                     "s" None)
                  [(Some "", Some Examples.int32)] "" (Some Examples.int32)
                  eq_refl eq_refl) as [n [Hn _]].
  discriminate Hn.
Qed.

(** C2, amended. From a source of named-tuple type: selecting by a
    non-empty name that is a field of the type gives a node of that field's
    type; selecting by an index in [[0, n)] gives a node of the type of the
    element at that position; selecting by an index outside [[0, n)] fails
    with a [ValueError]; selecting by the empty name fails with a
    [ValueError], whether or not the type has a field of that name. *)
Theorem Selection_init_type (source : Node)
  (elements : list (option string * option Type_)) :
  type_signature source = Some (NamedTupleType elements) ->
  (forall name t, name <> "" -> lookup_field elements name = Some t ->
     Selection_init (PyNode source) (PyStr name) PyNone
       = Ok (Selection t source (Some name) None) /\
     type_signature (Selection t source (Some name) None) = t) /\
  (forall index, 0 <= index < Z.of_nat (length elements) ->
     exists element,
       nth_error elements (Z.to_nat index) = Some element /\
       Selection_init (PyNode source) PyNone (PyInt index)
         = Ok (Selection (snd element) source None (Some index)) /\
       type_signature (Selection (snd element) source None (Some index))
         = snd element) /\
  (forall index, ~ (0 <= index < Z.of_nat (length elements)) ->
     Selection_init (PyNode source) PyNone (PyInt index)
       = Raise (ValueError
                  (IndexDoesNotFit index (Z.of_nat (length elements) - 1))) /\
     fails_with InvalidValueKind
       (Selection_init (PyNode source) PyNone (PyInt index))) /\
  (Selection_init (PyNode source) (PyStr "") PyNone
     = Raise (ValueError EmptySelectionName) /\
   fails_with InvalidValueKind
     (Selection_init (PyNode source) (PyStr "") PyNone)).
Proof.
  intros Hs. split; [| split; [| split]].
  - intros name t Hne Hf. split; [| reflexivity].
    unfold Selection_init; cbn. rewrite Hs; cbn.
    destruct (String.eqb_spec name "") as [E | _]; [contradiction |].
    unfold get_named_tuple_element_type. rewrite Hf. reflexivity.
  - intros index Hi.
    destruct (nth_error elements (Z.to_nat index)) as [element |] eqn:En.
    + exists element. split; [reflexivity |]. split; [| reflexivity].
      unfold Selection_init; cbn. rewrite Hs; cbn.
      replace (index >=? 0) with true by lia.
      replace (index <? Z.of_nat (length elements)) with true by lia.
      cbn. rewrite En. reflexivity.
    + apply nth_error_None in En. lia.
  - intros index Hi.
    assert (E : Selection_init (PyNode source) PyNone (PyInt index)
                = Raise (ValueError
                           (IndexDoesNotFit index
                              (Z.of_nat (length elements) - 1)))).
    { unfold Selection_init; cbn. rewrite Hs; cbn.
      destruct (index >=? 0) eqn:E0;
        destruct (index <? Z.of_nat (length elements)) eqn:E1;
        try reflexivity. lia. }
    split; [exact E |]. unfold fails_with. rewrite E. by_kind.
  - assert (E : Selection_init (PyNode source) (PyStr "") PyNone
                = Raise (ValueError EmptySelectionName)).
    { unfold Selection_init; cbn. rewrite Hs. reflexivity. }
    split; [exact E |]. unfold fails_with. rewrite E. by_kind.
Qed.

Lemma Selection_init_type_witness :
  Selection_init (PyNode Examples.src) (PyStr "x") PyNone
    = Ok (Selection (Some Examples.int32) Examples.src (Some "x") None) /\
  (exists element,
     nth_error [(Some "x", Some Examples.int32); (None, Some Examples.bool_)]
               (Z.to_nat 1) = Some element /\
     Selection_init (PyNode Examples.src) PyNone (PyInt 1)
       = Ok (Selection (snd element) Examples.src None (Some 1)) /\
     type_signature (Selection (snd element) Examples.src None (Some 1))
       = snd element) /\
  fails_with InvalidValueKind
    (Selection_init (PyNode Examples.src) PyNone (PyInt 2)) /\
  Selection_init (PyNode Examples.src) (PyStr "") PyNone
    = Raise (ValueError EmptySelectionName).
Proof.
  destruct (Selection_init_type Examples.src
              [(Some "x", Some Examples.int32); (None, Some Examples.bool_)]
              eq_refl) as [Hname [Hin [Hout Hempty]]].
  split; [| split; [| split]].
  - refine (proj1 (Hname "x" (Some Examples.int32) _ eq_refl)). discriminate.
  - apply (Hin 1). cbn; lia.
  - refine (proj2 (Hout 2 _)). cbn; lia.
  - exact (proj1 Hempty).
Defined.

(** ** Reference *)

(** C10 as stated fails: the empty string is text, and a reference is
    constructed with it. *)
Lemma Reference_init_empty_name_counterexample :
  ~ (forall name type_spec context n,
       Reference_init name type_spec context = Ok n ->
       Reference_name n <> Some "").
Proof.
  intros claim.
  apply (claim (PyStr "") (Some Examples.int32) None
               (Reference (Some Examples.int32) "" None));
    reflexivity.
Qed.

(** C10, amended. A reference is constructed from every text name, the
    empty one included, and holds that name; with a name that is not text
    the construction fails with a [TypeError]. *)
Theorem Reference_init_name :
  (forall (s : string) type_spec context,
     Reference_init (PyStr s) type_spec context
       = Ok (Reference type_spec s context) /\
     Reference_name (Reference type_spec s context) = Some s) /\
  (forall name type_spec context, (forall s, name <> PyStr s) ->
     fails_with InvalidArgumentKind (Reference_init name type_spec context)) /\
  (forall name type_spec context n,
     Reference_init name type_spec context = Ok n ->
     exists s, name = PyStr s /\ Reference_name n = Some s).
Proof.
  split; [| split].
  - intros; split; reflexivity.
  - intros name type_spec context Hname. unfold fails_with, Reference_init.
    destruct name; cbn; try by_kind. now destruct (Hname s).
  - intros name type_spec context n. unfold Reference_init.
    destruct name; cbn; try discriminate.
    intros H; injection H as <-. exists s. split; reflexivity.
Qed.

Lemma Reference_init_name_witness :
  fails_with InvalidArgumentKind
    (Reference_init (PyInt 7) (Some Examples.int32) None) /\
  (exists s, PyStr "" = PyStr s /\
             Reference_name (Reference (Some Examples.int32) "" None)
               = Some s).
Proof.
  destruct Reference_init_name as [_ [Hbad Hgood]].
  split.
  - apply Hbad. discriminate.
  - exact (Hgood (PyStr "") (Some Examples.int32) None _ eq_refl).
Defined.

(** C4, at the input where it fails. [Reference(name, None)] is
    constructed, and its [type_signature] is [None]: the constructor passes
    the type specification on without the test for [None] that [Intrinsic],
    [Data] and [Lambda] make. *)
Theorem Reference_init_null_type :
  Reference_init (PyStr "r") None None = Ok (Reference None "r" None) /\
  type_signature (Reference None "r" None) = None.
Proof.
  split; reflexivity.
Qed.

(** The constructors that test for [None], and [Tuple], give a node with a
    type. *)
Lemma guarded_init_type_present :
  (forall uri type_spec n,
     Intrinsic_init uri type_spec = Ok n -> type_signature n <> None) /\
  (forall uri type_spec n,
     Data_init uri type_spec = Ok n -> type_signature n <> None) /\
  (forall parameter_name parameter_type result n,
     Lambda_init parameter_name parameter_type result = Ok n ->
     type_signature n <> None) /\
  (forall elements n, Tuple_init elements = Ok n -> type_signature n <> None).
Proof.
  repeat split.
  - intros uri type_spec n. unfold Intrinsic_init.
    destruct uri; cbn; try discriminate.
    destruct type_spec; try discriminate.
    intros H; injection H as <-. discriminate.
  - intros uri type_spec n. unfold Data_init.
    destruct uri; cbn; try discriminate.
    destruct type_spec; try discriminate.
    intros H; injection H as <-. discriminate.
  - intros parameter_name parameter_type result n. unfold Lambda_init.
    destruct parameter_name; cbn; try discriminate.
    destruct parameter_type; cbn; try discriminate.
    destruct result; cbn; try discriminate.
    intros H; injection H as <-. discriminate.
  - intros elements n. unfold Tuple_init.
    destruct (comprehension _map_element elements) as [elems |]; cbn;
      try discriminate.
    destruct (NamedTupleType_init (map type_element elems)); cbn;
      try discriminate.
    destruct (AnonymousTuple_init elems); cbn; try discriminate.
    intros H; injection H as <-. discriminate.
Qed.

(** The type of a block is the type found in its result: it is [None] when
    that one is. *)
Lemma Block_init_null_type :
  Block_init [] (PyNode (Reference None "r" None))
    = Ok (Block None [] (Reference None "r" None)).
Proof.
  reflexivity.
Qed.

(** ** Tuple *)

(** C3, at the input where it fails. The element [('', r)] has the non-null
    name [''], and the field derived for it in the type has no name: the
    test [if e[0]] takes the empty name for an absent one, where
    [_map_element] and [__repr__] test [e[0] is None]. *)
Theorem Tuple_init_empty_name :
  Tuple_init [PyTuple [PyStr ""; PyNode Examples.r_int]]
    = Ok (Tuple (Some (NamedTupleType [(None, Some Examples.int32)]))
                [(Some "", Examples.r_int)]) /\
  map fst (Tuple_elements
             (Tuple (Some (NamedTupleType [(None, Some Examples.int32)]))
                    [(Some "", Examples.r_int)]))
    <> field_names (Some (NamedTupleType [(None, Some Examples.int32)])).
Proof.
  split; [reflexivity | discriminate].
Qed.

(** [first_duplicate] finds nothing exactly when the non-null names are
    pairwise different, and different from those seen before. *)
Lemma first_duplicate_None (seen : list string) (names : list (option string)) :
  NoDup seen ->
  (first_duplicate seen names = None <-> NoDup (named names ++ seen)).
Proof.
  revert seen; induction names as [| [n |] rest IH]; intros seen Hs; cbn.
  - split; auto.
  - destruct (existsb (String.eqb n) seen) eqn:E.
    + split; [discriminate |]. intros Hnd. exfalso.
      apply existsb_exists in E as [x [Hx Hnx]].
      apply String.eqb_eq in Hnx; subst x.
      inversion Hnd as [| ? ? Hnot _]; subst. apply Hnot.
      apply in_or_app; now right.
    + assert (Hn : ~ In n seen).
      { intros Hin. apply Bool.not_true_iff_false in E. apply E.
        apply existsb_exists. exists n. split; [exact Hin |].
        apply String.eqb_refl. }
      rewrite (IH (n :: seen)) by (constructor; assumption).
      split; intros Hnd.
      * apply NoDup_remove in Hnd as [Hnd Hnot]. constructor; assumption.
      * inversion Hnd as [| ? ? Hnot Hnd']; subst.
        apply (NoDup_Add (Add_app n (named rest) seen)).
        split; assumption.
  - apply IH, Hs.
Qed.

(** The fields of the type of a tuple follow its elements in order; each
    has the type of the child, and the name of the element unless that name
    is empty. *)
Lemma Tuple_init_fields (elements : list pyobj) (n : Node) :
  Tuple_init elements = Ok n ->
  exists elems,
    comprehension _map_element elements = Ok elems /\
    Tuple_elements n = elems /\
    field_types (type_signature n) = map (fun e => type_signature (snd e)) elems /\
    field_names (type_signature n)
      = map (fun e => match fst e with
                      | Some "" => None
                      | name => name
                      end) elems.
Proof.
  unfold Tuple_init.
  destruct (comprehension _map_element elements) as [elems |]; cbn;
    try discriminate.
  unfold NamedTupleType_init, AnonymousTuple_init.
  destruct (first_duplicate [] (map fst (map _ (map type_element elems))));
    cbn; try discriminate.
  destruct (first_duplicate [] (map fst elems)); cbn; try discriminate.
  intros H; injection H as <-. exists elems. cbn.
  rewrite !map_map. repeat split.
  - apply map_ext. intros [[s |] v]; cbn; [| reflexivity].
    destruct (String.eqb s ""); reflexivity.
  - apply map_ext. intros [[s |] v]; cbn; [| reflexivity].
    destruct (String.eqb_spec s "") as [-> | Hs]; cbn; [reflexivity |].
    destruct s; [contradiction | reflexivity].
Qed.

(** Where no element has the empty name, the names of the fields are the
    names of the elements. *)
Lemma Tuple_init_names_mirrored (elements : list pyobj) (n : Node) :
  Tuple_init elements = Ok n ->
  ~ In (Some "") (map fst (Tuple_elements n)) ->
  field_names (type_signature n) = map fst (Tuple_elements n).
Proof.
  intros H Hne. destruct (Tuple_init_fields _ _ H) as [elems [_ [He [_ Hn]]]].
  rewrite Hn. rewrite He in Hne |- *.
  apply map_ext_in. intros [[s |] v] Hin; cbn; [| reflexivity].
  destruct s; [| reflexivity]. exfalso. apply Hne.
  apply in_map_iff. exists (Some "", v). split; [reflexivity | exact Hin].
Qed.


(** ** CompiledComputation *)

Lemma Adler32_step_range (ab : Z * Z) (c : ascii) :
  0 <= fst (Adler32.step ab c) < Adler32.BASE /\
  0 <= snd (Adler32.step ab c) < Adler32.BASE.
Proof.
  unfold Adler32.step, Adler32.BASE; cbn [fst snd].
  split; apply Z.mod_pos_bound; lia.
Qed.

Lemma Adler32_fold_range (l : list ascii) (ab : Z * Z) :
  0 <= fst ab < Adler32.BASE /\ 0 <= snd ab < Adler32.BASE ->
  0 <= fst (fold_left Adler32.step l ab) < Adler32.BASE /\
  0 <= snd (fold_left Adler32.step l ab) < Adler32.BASE.
Proof.
  revert ab; induction l as [| c l IH]; intros ab Hab; cbn.
  - exact Hab.
  - apply IH, Adler32_step_range.
Qed.

Lemma lor_below_pow2 (x y n : Z) :
  0 < n -> 0 <= x < 2 ^ n -> 0 <= y < 2 ^ n -> 0 <= Z.lor x y < 2 ^ n.
Proof.
  intros Hn Hx Hy. split; [apply Z.lor_nonneg; lia |].
  destruct (Z.eq_dec (Z.lor x y) 0) as [E | E].
  - rewrite E. lia.
  - assert (Hpos : 0 < Z.lor x y) by (pose proof (Z.lor_nonneg x y); lia).
    apply Z.log2_lt_pow2; [exact Hpos |].
    rewrite Z.log2_lor by lia.
    apply Z.max_lub_lt.
    + destruct (Z.eq_dec x 0) as [-> | Hx0]; [cbn; lia |].
      apply Z.log2_lt_pow2; lia.
    + destruct (Z.eq_dec y 0) as [-> | Hy0]; [cbn; lia |].
      apply Z.log2_lt_pow2; lia.
Qed.

(** The checksum fits 32 bits. *)
Lemma Adler32_unsigned_range (data : string) :
  0 <= Adler32.unsigned data < 2 ^ 32.
Proof.
  unfold Adler32.unsigned, Adler32.sums.
  destruct (Adler32_fold_range (list_ascii_of_string data) (1, 0))
    as [Ha Hb]; [unfold Adler32.BASE; cbn; lia |].
  unfold Adler32.BASE in *.
  apply lor_below_pow2; [lia | | lia].
  rewrite Z.shiftl_mul_pow2 by lia. lia.
Qed.

(** Masking the signed result of [zlib.adler32] with [0xFFFFFFFF] gives the
    unsigned checksum back. *)
Lemma adler32_masked (data : string) :
  Z.land (Adler32.adler32 data) 0xFFFFFFFF = Adler32.unsigned data.
Proof.
  pose proof (Adler32_unsigned_range data) as Hu.
  change 0xFFFFFFFF with (Z.ones 32). rewrite Z.land_ones by lia.
  unfold Adler32.adler32. destruct (Adler32.unsigned data <? 2 ^ 31).
  - apply Z.mod_small; lia.
  - replace (Adler32.unsigned data - 2 ^ 32)
      with (Adler32.unsigned data + (-1) * 2 ^ 32) by lia.
    rewrite Z.mod_add by lia. apply Z.mod_small; lia.
Qed.

Lemma string_of_uint_digits (d : Hexadecimal.uint) :
  forallb is_lower_hex_digit
    (list_ascii_of_string (NilEmpty.string_of_uint d)) = true.
Proof.
  induction d; cbn; try reflexivity; exact IHd.
Qed.

(** [{:x}] of a non-negative number is a numeral in lowercase
    hexadecimal. *)
Lemma format_x_lower_hex (n : Z) : 0 <= n -> lower_hex (format_x n) = true.
Proof.
  intros Hn. unfold format_x, lower_hex.
  destruct n as [| p | p]; [reflexivity | | lia].
  cbn [Z.to_hex_int NilZero.string_of_int]. unfold NilZero.string_of_uint.
  destruct (Pos.to_hex_uint p); try reflexivity;
    rewrite string_of_uint_digits; reflexivity.
Qed.

(** C7, at the input where it fails. On Python 3, for every payload whose
    type deserializes, the construction without a name raises a
    [TypeError]: [repr()] returns text there and [zlib.adler32] takes bytes
    only, so no default name is generated, where the docstring of the
    constructor says that one is. A name that is supplied is stored as it
    is, on either interpreter. *)
Theorem CompiledComputation_init_Python3 {cap : TypeCapability}
  (proto : Computation) (t : option Type_) :
  deserialize_type (proto_type proto) = Ok t ->
  CompiledComputation_init Python3 (PyProto proto) PyNone
    = Raise (TypeError (BytesLikeRequired (repr_Computation proto))) /\
  (forall py name,
     CompiledComputation_init py (PyProto proto) (PyStr name)
       = Ok (CompiledComputation t proto name) /\
     CompiledComputation_name (CompiledComputation t proto name) = Some name).
Proof.
  intros Hd. split.
  - unfold CompiledComputation_init; cbn. rewrite Hd. reflexivity.
  - intros py name. split; [| reflexivity].
    unfold CompiledComputation_init; cbn. rewrite Hd. reflexivity.
Qed.

Lemma CompiledComputation_init_Python3_witness :
  @CompiledComputation_init Examples.cap Python3 (PyProto Examples.wiki) PyNone
    = Raise (TypeError (BytesLikeRequired "Wikipedia")) /\
  @CompiledComputation_init Examples.cap Python3 (PyProto Examples.wiki)
     (PyStr "w")
    = Ok (CompiledComputation (Some Examples.int32) Examples.wiki "w").
Proof.
  destruct (@CompiledComputation_init_Python3 Examples.cap Examples.wiki
              (Some Examples.int32) eq_refl) as [Hnone Hgiven].
  split; [exact Hnone | exact (proj1 (Hgiven Python3 "w"))].
Defined.

(** The checksum of ["Wikipedia"] is [0x11e60398]. *)
Example adler32_Wikipedia :
  format_x (Z.land (Adler32.adler32 "Wikipedia") 0xFFFFFFFF) = "11e60398".
Proof.
  reflexivity.
Qed.

(** * Further properties of the constructors *)

(** ** Call: what is refused, and what a constructed call is *)

(** X1. A call is refused with a [TypeError] when [func] is not a building
    block, and when it is one whose type is not a function type, a missing
    type included; the argument is not looked at. *)
Theorem Call_init_bad_func {cap : TypeCapability} (arg : pyobj) :
  (forall func, (forall n, func <> PyNode n) ->
     Call_init func arg
       = Raise (TypeError (NotAnInstance func "ComputationBuildingBlock"))) /\
  (forall func : Node,
     (forall P R, type_signature func <> Some (FunctionType P R)) ->
     Call_init (PyNode func) arg
       = Raise (TypeError (FuncNotFunctional (type_signature func)))).
Proof.
  split.
  - intros func Hf. destruct func; try reflexivity. now destruct (Hf n).
  - intros func Hf. unfold Call_init; cbn.
    destruct (type_signature func) as [[d | elements | P R] |];
      try reflexivity.
    now destruct (Hf P R).
Qed.

Lemma Call_init_bad_func_witness :
  @Call_init Examples.cap (PyStr "f") PyNone
    = Raise (TypeError (NotAnInstance (PyStr "f") "ComputationBuildingBlock"))
  /\
  @Call_init Examples.cap (PyNode Examples.r_int) (PyNode Examples.r_int)
    = Raise (TypeError (FuncNotFunctional (Some Examples.int32))).
Proof.
  split.
  - apply (proj1 (@Call_init_bad_func Examples.cap PyNone)). discriminate.
  - apply (proj2 (@Call_init_bad_func Examples.cap (PyNode Examples.r_int))
             Examples.r_int).
    discriminate.
Defined.

(** X2. Towards a function that expects a parameter: no argument is a
    [TypeError]; an argument that is not a building block is not caught by
    a type check, the failure is the [AttributeError] of reading its
    [type_signature]. *)
Theorem Call_init_expected_argument {cap : TypeCapability}
  (func : Node) (p : Type_) (R : option Type_) :
  type_signature func = Some (FunctionType (Some p) R) ->
  Call_init (PyNode func) PyNone
    = Raise (TypeError (ExpectsArgumentGotNone p)) /\
  (forall arg, arg <> PyNone -> (forall a, arg <> PyNode a) ->
     Call_init (PyNode func) arg = Raise (AttributeError arg "type_signature")).
Proof.
  intros Hf. unfold Call_init; cbn. rewrite Hf; cbn. split; [reflexivity |].
  intros arg Hnone Hnode.
  destruct arg; try reflexivity; [contradiction | now destruct (Hnode n)].
Qed.

Lemma Call_init_expected_argument_witness :
  @Call_init Examples.cap (PyNode Examples.f_int) PyNone
    = Raise (TypeError (ExpectsArgumentGotNone Examples.int32)) /\
  @Call_init Examples.cap (PyNode Examples.f_int) (PyInt 3)
    = Raise (AttributeError (PyInt 3) "type_signature").
Proof.
  destruct (@Call_init_expected_argument Examples.cap Examples.f_int
              Examples.int32 (Some Examples.bool_) eq_refl) as [Hnone Hobj].
  split; [exact Hnone |]. apply Hobj; discriminate.
Defined.

(** What a call that was constructed looks like. *)
Lemma Call_init_Ok {cap : TypeCapability} (func arg : pyobj) (n : Node) :
  Call_init func arg = Ok n ->
  exists f P R,
    func = PyNode f /\ type_signature f = Some (FunctionType P R) /\
    ((exists p a, P = Some p /\ arg = PyNode a /\
                  is_assignable_from p (type_signature a) = true /\
                  n = Call R f (Some a)) \/
     (P = None /\ arg = PyNone /\ n = Call R f None)).
Proof.
  unfold Call_init. destruct func as [| | | | | | f |]; cbn; try discriminate.
  destruct (type_signature f) as [[d | elements | P R] |] eqn:Ef;
    try discriminate.
  intros H. exists f, P, R. split; [reflexivity |]. split; [exact Ef |].
  destruct P as [p |].
  - left. destruct arg as [| | | | | | a |]; cbn in H; try discriminate.
    destruct (is_assignable_from p (type_signature a)) eqn:Ea; cbn in H;
      try discriminate.
    injection H as <-. exists p, a. repeat split. exact Ea.
  - right. destruct arg; cbn in H; try discriminate.
    injection H as <-. repeat split.
Qed.

(** X3. A constructed call holds the function it was given, whose type is a
    function type; it holds an argument exactly when that type has a
    parameter, the argument's type is then assignable to the parameter, and
    the type of the call is the result of the function type. *)
Theorem Call_init_constructed {cap : TypeCapability} (func arg : pyobj)
  (n : Node) :
  Call_init func arg = Ok n ->
  exists f P R,
    func = PyNode f /\ type_signature f = Some (FunctionType P R) /\
    Call_function n = Some f /\ type_signature n = R /\
    match P, Call_argument n with
    | Some p, Some a =>
        arg = PyNode a /\ is_assignable_from p (type_signature a) = true
    | None, None => arg = PyNone
    | _, _ => False
    end.
Proof.
  intros H. destruct (Call_init_Ok _ _ _ H) as [f [P [R [Hf [Ht Hn]]]]].
  exists f, P, R. split; [exact Hf |]. split; [exact Ht |].
  destruct Hn as [[p [a [-> [Ha [Has ->]]]]] | [-> [Ha ->]]]; cbn;
    repeat split; assumption.
Qed.

Lemma Call_init_constructed_witness :
  exists f P R,
    PyNode Examples.f_int = PyNode f /\
    type_signature f = Some (FunctionType P R) /\
    Call_function
      (Call (Some Examples.bool_) Examples.f_int (Some Examples.r_int))
      = Some f /\
    type_signature
      (Call (Some Examples.bool_) Examples.f_int (Some Examples.r_int)) = R /\
    match P, Call_argument
               (Call (Some Examples.bool_) Examples.f_int
                     (Some Examples.r_int)) with
    | Some p, Some a =>
        PyNode Examples.r_int = PyNode a /\
        @is_assignable_from Examples.cap p (type_signature a) = true
    | None, None => PyNode Examples.r_int = PyNone
    | _, _ => False
    end.
Proof.
  exact (@Call_init_constructed Examples.cap (PyNode Examples.f_int)
           (PyNode Examples.r_int) _ eq_refl).
Defined.

(** X4. The assertion at the end of [Call.__init__] never fails: no
    arguments make the constructor raise an [AssertionError]. *)
Theorem Call_init_assertion_holds {cap : TypeCapability} (func arg : pyobj) :
  Call_init func arg <> Raise AssertionError.
Proof.
  unfold Call_init. destruct func as [| | | | | | f |]; cbn; try discriminate.
  destruct (type_signature f) as [[d | elements | [p |] R] |];
    try discriminate.
  - destruct arg as [| | | | | | a |]; cbn; try discriminate.
    destruct (is_assignable_from p (type_signature a)); cbn; discriminate.
  - destruct arg; cbn; discriminate.
Qed.

(** X5. Calling a lambda: with an argument whose type is assignable to the
    parameter type the call is constructed and has the type of the body of
    the lambda; without an argument it is refused, since a lambda always has
    a parameter. *)
Theorem Call_of_Lambda {cap : TypeCapability} (parameter_name : string)
  (T : Type_) (result : Node) :
  exists lam,
    Lambda_init (PyStr parameter_name) (Some T) (PyNode result) = Ok lam /\
    Call_init (PyNode lam) PyNone
      = Raise (TypeError (ExpectsArgumentGotNone T)) /\
    (forall a, is_assignable_from T (type_signature a) = true ->
       Call_init (PyNode lam) (PyNode a)
         = Ok (Call (type_signature result) lam (Some a))) /\
    (forall a, is_assignable_from T (type_signature a) = false ->
       Call_init (PyNode lam) (PyNode a)
         = Raise (TypeError (IncompatibleArgument T (type_signature a)))).
Proof.
  eexists. split; [reflexivity |]. split; [reflexivity |].
  split; intros a Ha; unfold Call_init; cbn; rewrite Ha; reflexivity.
Qed.

Lemma Call_of_Lambda_witness :
  exists lam,
    Lambda_init (PyStr "x") (Some Examples.int32) (PyNode Examples.r_bool)
      = Ok lam /\
    @Call_init Examples.cap (PyNode lam) (PyNode Examples.r_int)
      = Ok (Call (Some Examples.bool_) lam (Some Examples.r_int)) /\
    @Call_init Examples.cap (PyNode lam) (PyNode Examples.r_bool)
      = Raise (TypeError (IncompatibleArgument Examples.int32
                            (Some Examples.bool_))).
Proof.
  destruct (@Call_of_Lambda Examples.cap "x" Examples.int32 Examples.r_bool)
    as [lam [Hl [_ [Hok Hbad]]]].
  exists lam. split; [exact Hl |]. split.
  - apply Hok. reflexivity.
  - apply Hbad. reflexivity.
Defined.

(** ** Selection: what is refused, and what a constructed selection is *)

(** X6. With exactly one of name and index given, a selection is refused
    with a [TypeError] when the source is not a building block, and when it
    is one whose type is not a named-tuple type, a missing type included:
    the name or index is not looked at. *)
Theorem Selection_init_bad_source (name index : pyobj) :
  is_None name <> is_None index ->
  (forall source, (forall n, source <> PyNode n) ->
     Selection_init source name index
       = Raise (TypeError (NotAnInstance source "ComputationBuildingBlock"))) /\
  (forall source : Node,
     (forall elements,
        type_signature source <> Some (NamedTupleType elements)) ->
     Selection_init (PyNode source) name index
       = Raise (TypeError (SourceNotNamedTuple (type_signature source)))).
Proof.
  intros Hone.
  assert (Hgo : forall source,
            Selection_init source name index
            = (source <- check_type_ComputationBuildingBlock source ;;
               Selection_init (PyNode source) name index)).
  { intros source. unfold Selection_init.
    destruct (is_None name), (is_None index); cbn; try congruence;
      destruct source; reflexivity. }
  split.
  - intros source Hs. rewrite Hgo.
    destruct source; try reflexivity. now destruct (Hs n).
  - intros source Hs. unfold Selection_init.
    destruct (is_None name), (is_None index); cbn; try congruence;
      destruct (type_signature source) as [[d | elements | P R] |];
      try reflexivity; now destruct (Hs elements).
Qed.

Lemma Selection_init_bad_source_witness :
  Selection_init (PyInt 0) (PyStr "x") PyNone
    = Raise (TypeError (NotAnInstance (PyInt 0) "ComputationBuildingBlock")) /\
  Selection_init (PyNode Examples.r_int) PyNone (PyInt 0)
    = Raise (TypeError (SourceNotNamedTuple (Some Examples.int32))).
Proof.
  split.
  - refine (proj1 (Selection_init_bad_source (PyStr "x") PyNone _)
              (PyInt 0) _); discriminate.
  - refine (proj2 (Selection_init_bad_source PyNone (PyInt 0) _)
              Examples.r_int _); discriminate.
Defined.

(** X7. From a source of named-tuple type: a name that is neither [None]
    nor text, and an index that is neither [None] nor an integer, are
    refused with a [TypeError]; the empty name is refused with a
    [ValueError]. *)
Theorem Selection_init_bad_selector (source : Node)
  (elements : list (option string * option Type_)) :
  type_signature source = Some (NamedTupleType elements) ->
  (forall name, name <> PyNone -> (forall s, name <> PyStr s) ->
     Selection_init (PyNode source) name PyNone
       = Raise (TypeError (NotAnInstance name "string_types"))) /\
  (forall index, index <> PyNone -> (forall i, index <> PyInt i) ->
     Selection_init (PyNode source) PyNone index
       = Raise (TypeError (NotAnInstance index "int"))) /\
  Selection_init (PyNode source) (PyStr "") PyNone
    = Raise (ValueError EmptySelectionName).
Proof.
  intros Hs. unfold Selection_init. split; [| split].
  - intros name Hnone Hstr.
    destruct name; cbn; rewrite ?Hs; try reflexivity;
      [contradiction | now destruct (Hstr s)].
  - intros index Hnone Hint.
    destruct index; cbn; rewrite ?Hs; try reflexivity;
      [contradiction | now destruct (Hint i)].
  - cbn. rewrite Hs. reflexivity.
Qed.

Lemma Selection_init_bad_selector_witness :
  Selection_init (PyNode Examples.src) (PyInt 1) PyNone
    = Raise (TypeError (NotAnInstance (PyInt 1) "string_types")) /\
  Selection_init (PyNode Examples.src) PyNone (PyStr "1")
    = Raise (TypeError (NotAnInstance (PyStr "1") "int")) /\
  Selection_init (PyNode Examples.src) (PyStr "") PyNone
    = Raise (ValueError EmptySelectionName).
Proof.
  destruct (Selection_init_bad_selector Examples.src _ eq_refl)
    as [Hname [Hindex Hempty]].
  split; [| split].
  - apply Hname; discriminate.
  - apply Hindex; discriminate.
  - exact Hempty.
Defined.

(** What a selection that was constructed looks like. *)
Lemma Selection_init_Ok (source name index : pyobj) (n : Node) :
  Selection_init source name index = Ok n ->
  exists src elements,
    source = PyNode src /\
    type_signature src = Some (NamedTupleType elements) /\
    ((exists s t, name = PyStr s /\ index = PyNone /\ s <> "" /\
                  lookup_field elements s = Some t /\
                  n = Selection t src (Some s) None) \/
     (exists i e, name = PyNone /\ index = PyInt i /\
                  0 <= i < Z.of_nat (length elements) /\
                  nth_error elements (Z.to_nat i) = Some e /\
                  n = Selection (snd e) src None (Some i))).
Proof.
  unfold Selection_init.
  destruct (is_None name) eqn:En, (is_None index) eqn:Ei; cbn;
    try discriminate.
  - destruct name; try discriminate.
    destruct source as [| | | | | | src |]; cbn; try discriminate.
    destruct (type_signature src) as [[d | elements | P R] |] eqn:Es;
      try discriminate.
    destruct index; cbn; try discriminate.
    destruct (i >=? 0) eqn:E0; cbn; try discriminate.
    destruct (i <? Z.of_nat (length elements)) eqn:E1; cbn; try discriminate.
    destruct (nth_error elements (Z.to_nat i)) as [e |] eqn:Ee;
      try discriminate.
    intros H; injection H as <-. exists src, elements.
    split; [reflexivity |]. split; [exact Es |]. right.
    exists i, e. repeat split; try reflexivity; try assumption; lia.
  - destruct index; try discriminate.
    destruct source as [| | | | | | src |]; cbn; try discriminate.
    destruct (type_signature src) as [[d | elements | P R] |] eqn:Es;
      try discriminate.
    destruct name; cbn; try discriminate.
    destruct (String.eqb_spec s "") as [-> | Hne]; try discriminate.
    unfold get_named_tuple_element_type.
    destruct (lookup_field elements s) as [t |] eqn:El; cbn;
      try discriminate.
    intros H; injection H as <-. exists src, elements.
    split; [reflexivity |]. split; [exact Es |]. left.
    exists s, t. repeat split; try reflexivity; assumption.
Qed.

(** X8. A constructed selection has a source of named-tuple type; built by
    name, the name is not empty and the type of the selection is the type
    of the field of that name; built by index, the index is within
    [[0, n)] and the type of the selection is the type of the element at
    that position. *)
Theorem Selection_init_constructed (source name index : pyobj) (n : Node) :
  Selection_init source name index = Ok n ->
  exists src elements,
    source = PyNode src /\
    type_signature src = Some (NamedTupleType elements) /\
    match Selection_name n, Selection_index n with
    | Some s, None =>
        name = PyStr s /\ s <> "" /\
        lookup_field elements s = Some (type_signature n)
    | None, Some i =>
        index = PyInt i /\ 0 <= i < Z.of_nat (length elements) /\
        option_map snd (nth_error elements (Z.to_nat i))
          = Some (type_signature n)
    | _, _ => False
    end.
Proof.
  intros H. destruct (Selection_init_Ok _ _ _ _ H)
    as [src [elements [Hsrc [Ht Hn]]]].
  exists src, elements. split; [exact Hsrc |]. split; [exact Ht |].
  destruct Hn as [[s [t [-> [_ [Hne [Hl ->]]]]]] | [i [e [_ [-> [Hi [He ->]]]]]]];
    cbn.
  - repeat split; assumption.
  - rewrite He. repeat split; lia.
Qed.

Lemma Selection_init_constructed_witness :
  exists src elements,
    PyNode Examples.src = PyNode src /\
    type_signature src = Some (NamedTupleType elements) /\
    PyInt 1 = PyInt 1 /\ 0 <= 1 < Z.of_nat (length elements) /\
    option_map snd (nth_error elements (Z.to_nat 1))
      = Some (Some Examples.bool_).
Proof.
  exact (Selection_init_constructed (PyNode Examples.src) PyNone (PyInt 1)
           _ eq_refl).
Defined.

(** X9. The element of [source_type.elements] is never read out of range:
    no arguments make [elements[index]] raise. *)
Theorem Selection_init_index_in_range (source name index : pyobj) :
  Selection_init source name index <> Raise (ForeignError "IndexError").
Proof.
  unfold Selection_init.
  destruct (is_None name), (is_None index); cbn; try discriminate.
  - destruct source as [| | | | | | src |]; cbn; try discriminate.
    destruct (type_signature src) as [[d | elements | P R] |];
      try discriminate.
    destruct index; cbn; try discriminate.
    destruct (i >=? 0) eqn:E0; cbn; try discriminate.
    destruct (i <? Z.of_nat (length elements)) eqn:E1; cbn; try discriminate.
    destruct (nth_error elements (Z.to_nat i)) eqn:Ee; try discriminate.
    apply nth_error_None in Ee. lia.
  - destruct source as [| | | | | | src |]; cbn; try discriminate.
    destruct (type_signature src) as [[d | elements | P R] |];
      try discriminate.
    destruct name; cbn; try discriminate.
    destruct (String.eqb s ""); try discriminate.
    unfold get_named_tuple_element_type.
    destruct (lookup_field elements s); cbn; discriminate.
Qed.

(** X10. From a source of named-tuple type, the selection constructed by
    a non-empty name that is a field renders as the string of the source
    followed by [.name], and the selection constructed by an integer proper
    within range renders as the string of the source followed by the index
    in decimal between brackets. *)
Theorem Selection_init_str (source : Node)
  (elements : list (option string * option Type_)) :
  type_signature source = Some (NamedTupleType elements) ->
  (forall s t, s <> "" -> lookup_field elements s = Some t ->
     exists n, Selection_init (PyNode source) (PyStr s) PyNone = Ok n /\
               str n = str source ++ "." ++ s) /\
  (forall i, 0 <= i < Z.of_nat (length elements) ->
     exists n, Selection_init (PyNode source) PyNone (PyInt i) = Ok n /\
               str n = str source ++ "[" ++ format_int i ++ "]").
Proof.
  intros Hs. split.
  - intros s t Hne Hl. exists (Selection t source (Some s) None).
    split; [| reflexivity].
    unfold Selection_init; cbn. rewrite Hs; cbn.
    destruct (String.eqb_spec s "") as [E | _]; [contradiction |].
    unfold get_named_tuple_element_type. rewrite Hl. reflexivity.
  - intros i Hi.
    destruct (nth_error elements (Z.to_nat i)) as [e |] eqn:En.
    + exists (Selection (snd e) source None (Some i)).
      split; [| reflexivity].
      unfold Selection_init; cbn. rewrite Hs; cbn.
      replace (i >=? 0) with true by lia.
      replace (i <? Z.of_nat (length elements)) with true by lia.
      cbn. rewrite En. reflexivity.
    + apply nth_error_None in En. lia.
Qed.

Lemma Selection_init_str_witness :
  (exists n, Selection_init (PyNode Examples.src) (PyStr "x") PyNone = Ok n /\
             str n = "s.x") /\
  (exists n, Selection_init (PyNode Examples.src) PyNone (PyInt 1) = Ok n /\
             str n = "s[1]").
Proof.
  destruct (Selection_init_str Examples.src _ eq_refl) as [Hname Hindex].
  split.
  - refine (Hname "x" (Some Examples.int32) _ eq_refl). discriminate.
  - apply (Hindex 1). cbn; lia.
Defined.

(** ** Tuple: order of the checks, and what a constructed tuple is *)

Lemma comprehension_stops {A B : Type} (f : A -> outcome B)
  (prefix : list A) (bad : A) (rest : list A) (done : list B) (e : Exception) :
  comprehension f prefix = Ok done -> f bad = Raise e ->
  comprehension f (prefix ++ bad :: rest) = Raise e.
Proof.
  revert done; induction prefix as [| a prefix IH]; intros done Hp Hb; cbn.
  - rewrite Hb. reflexivity.
  - cbn in Hp. destruct (f a) as [b |]; cbn in *; try discriminate.
    destruct (comprehension f prefix) as [bs |]; cbn in *; try discriminate.
    rewrite (IH bs eq_refl Hb). reflexivity.
Qed.

Lemma comprehension_length {A B : Type} (f : A -> outcome B) (l : list A)
  (done : list B) :
  comprehension f l = Ok done -> length done = length l.
Proof.
  revert done; induction l as [| a l IH]; intros done H; cbn in H.
  - injection H as <-. reflexivity.
  - destruct (f a) as [b |]; cbn in H; try discriminate.
    destruct (comprehension f l) as [bs |]; cbn in H; try discriminate.
    injection H as <-. cbn. f_equal. apply IH. reflexivity.
Qed.

Lemma _map_element_raises (e : pyobj) (exn : Exception) :
  _map_element e = Raise exn -> exists site, exn = TypeError site.
Proof.
  unfold _map_element.
  destruct e as [| | | [| [| s | | | | | |] [| v [|]]] | | | |]; cbn;
    try discriminate;
    try (intros H; injection H as <-; eexists; reflexivity);
    destruct v; cbn; try discriminate;
    intros H; injection H as <-; eexists; reflexivity.
Qed.

(** X11. A tuple is refused with the [TypeError] of its first malformed
    element: the elements after it are not examined, and names shared by the
    elements before it do not matter. *)
Theorem Tuple_init_first_malformed (prefix : list pyobj) (bad : pyobj)
  (rest : list pyobj) (done : list (option string * Node)) (e : Exception) :
  comprehension _map_element prefix = Ok done ->
  _map_element bad = Raise e ->
  Tuple_init (prefix ++ bad :: rest) = Raise e /\
  fails_with InvalidArgumentKind (Tuple_init (prefix ++ bad :: rest)).
Proof.
  intros Hp Hb.
  assert (E : Tuple_init (prefix ++ bad :: rest) = Raise e).
  { unfold Tuple_init. rewrite (comprehension_stops _ _ _ _ _ _ Hp Hb).
    reflexivity. }
  split; [exact E |]. unfold fails_with. rewrite E.
  destruct (_map_element_raises _ _ Hb) as [site ->]. by_kind.
Qed.

Lemma Tuple_init_first_malformed_witness :
  Tuple_init ([PyTuple [PyStr "a"; PyNode Examples.r_int];
               PyTuple [PyStr "a"; PyNode Examples.r_bool]]
              ++ PyInt 5 :: [PyNone])
    = Raise (TypeError (UnexpectedTupleElement (PyInt 5))) /\
  fails_with InvalidArgumentKind
    (Tuple_init ([PyTuple [PyStr "a"; PyNode Examples.r_int];
                  PyTuple [PyStr "a"; PyNode Examples.r_bool]]
                 ++ PyInt 5 :: [PyNone])).
Proof.
  exact (Tuple_init_first_malformed
           [PyTuple [PyStr "a"; PyNode Examples.r_int];
            PyTuple [PyStr "a"; PyNode Examples.r_bool]]
           (PyInt 5) [PyNone] _ _ eq_refl eq_refl).
Defined.


Lemma NamedTupleType_init_fields (elems : list (option string * Node)) :
  NamedTupleType_init (map type_element elems)
    = (fields <- AnonymousTuple_init (map field_of elems) ;;
       Ok (NamedTupleType fields)).
Proof.
  unfold NamedTupleType_init. rewrite map_map. reflexivity.
Qed.

(** What a tuple that was constructed looks like. *)
Lemma Tuple_init_Ok (elements : list pyobj) (n : Node) :
  Tuple_init elements = Ok n ->
  exists elems,
    comprehension _map_element elements = Ok elems /\
    NoDup (named (map fst elems)) /\
    n = Tuple (Some (NamedTupleType (map field_of elems))) elems.
Proof.
  unfold Tuple_init.
  destruct (comprehension _map_element elements) as [elems |]; cbn;
    try discriminate.
  rewrite NamedTupleType_init_fields. unfold AnonymousTuple_init.
  destruct (first_duplicate [] (map fst (map field_of elems))); cbn;
    try discriminate.
  destruct (first_duplicate [] (map fst elems)) eqn:E; cbn; try discriminate.
  intros H; injection H as <-. exists elems.
  split; [reflexivity |]. split; [| reflexivity].
  apply (first_duplicate_None [] (map fst elems) (NoDup_nil _)) in E.
  now rewrite app_nil_r in E.
Qed.







(** ** Selecting from a constructed tuple *)

Lemma snd_field_of (e : option string * Node) :
  snd (field_of e) = type_signature (snd e).
Proof.
  destruct e as [[s |] v]; unfold field_of, type_element; cbn;
    [destruct (String.eqb s "") |]; reflexivity.
Qed.

Lemma In_named (elems : list (option string * Node)) (s : string) (c : Node) :
  In (Some s, c) elems -> In s (named (map fst elems)).
Proof.
  induction elems as [| [[s' |] v] rest IH]; cbn; intros H.
  - contradiction.
  - destruct H as [H | H]; [injection H as -> _; now left | right; auto].
  - destruct H as [H | H]; [discriminate | auto].
Qed.

Lemma lookup_field_of (elems : list (option string * Node)) (s : string)
  (c : Node) :
  NoDup (named (map fst elems)) -> In (Some s, c) elems -> s <> "" ->
  lookup_field (map field_of elems) s = Some (type_signature c).
Proof.
  intros Hnd Hin Hs. induction elems as [| [[s' |] v] rest IH]; cbn in *.
  - contradiction.
  - inversion Hnd as [| ? ? Hnot Hnd']; subst.
    unfold field_of at 1, type_element; cbn [fst snd].
    destruct Hin as [Hhd | Htl].
    + injection Hhd as -> ->.
      destruct (String.eqb_spec s "") as [E | _]; [contradiction |].
      cbn. rewrite String.eqb_refl. reflexivity.
    + destruct (String.eqb_spec s' "") as [-> | _]; cbn; [now apply IH |].
      destruct (String.eqb_spec s s') as [-> | _]; [| now apply IH].
      exfalso. apply Hnot. exact (In_named _ _ _ Htl).
  - destruct Hin as [Hhd | Htl]; [discriminate | now apply IH].
Qed.

(** X14. Selecting by an index within range from a constructed tuple gives
    a selection whose type is the type of the element of the tuple at that
    position. *)
Theorem Selection_of_Tuple_by_index (elements : list pyobj) (t : Node)
  (i : Z) :
  Tuple_init elements = Ok t ->
  0 <= i < Z.of_nat (length elements) ->
  exists child,
    nth_error (Tuple_elements t) (Z.to_nat i) = Some child /\
    Selection_init (PyNode t) PyNone (PyInt i)
      = Ok (Selection (type_signature (snd child)) t None (Some i)).
Proof.
  intros Ht Hi. destruct (Tuple_init_Ok _ _ Ht) as [elems [Hc [_ ->]]].
  pose proof (comprehension_length _ _ _ Hc) as Hlen.
  destruct (nth_error elems (Z.to_nat i)) as [child |] eqn:En.
  - exists child. split; [exact En |].
    unfold Selection_init; cbn. rewrite length_map.
    replace (i >=? 0) with true by lia.
    replace (i <? Z.of_nat (length elems)) with true by lia.
    cbn. rewrite nth_error_map, En. cbn. rewrite snd_field_of. reflexivity.
  - apply nth_error_None in En. lia.
Qed.

Lemma Selection_of_Tuple_by_index_witness :
  exists child,
    nth_error (Tuple_elements Examples.tup) (Z.to_nat 1) = Some child /\
    Selection_init (PyNode Examples.tup) PyNone (PyInt 1)
      = Ok (Selection (type_signature (snd child)) Examples.tup None (Some 1)).
Proof.
  apply (Selection_of_Tuple_by_index
           [PyTuple [PyStr "x"; PyNode Examples.r_int];
            PyNode Examples.r_bool]); [reflexivity | cbn; lia].
Defined.

(** X15. Selecting by a non-empty name that an element of a constructed
    tuple has gives a selection whose type is the type of that element. *)
Theorem Selection_of_Tuple_by_name (elements : list pyobj) (t : Node)
  (s : string) (child : Node) :
  Tuple_init elements = Ok t ->
  In (Some s, child) (Tuple_elements t) -> s <> "" ->
  Selection_init (PyNode t) (PyStr s) PyNone
    = Ok (Selection (type_signature child) t (Some s) None).
Proof.
  intros Ht Hin Hs. destruct (Tuple_init_Ok _ _ Ht) as [elems [_ [Hnd ->]]].
  cbn in Hin. unfold Selection_init; cbn.
  destruct (String.eqb_spec s "") as [E | _]; [contradiction |].
  unfold get_named_tuple_element_type.
  rewrite (lookup_field_of _ _ _ Hnd Hin Hs). reflexivity.
Qed.

Lemma Selection_of_Tuple_by_name_witness :
  Selection_init (PyNode Examples.tup) (PyStr "x") PyNone
    = Ok (Selection (Some Examples.int32) Examples.tup (Some "x") None).
Proof.
  apply (Selection_of_Tuple_by_name
           [PyTuple [PyStr "x"; PyNode Examples.r_int];
            PyNode Examples.r_bool] Examples.tup "x" Examples.r_int);
    [reflexivity | cbn; tauto | discriminate].
Defined.

(** ** Block: the position reported, and what a constructed block is *)

Lemma Block_locals_malformed (good : list (string * Node)) (bad : pyobj)
  (rest : list pyobj) (index : nat) :
  is_local_declaration bad = false ->
  Block_locals index (locals_as_pyobj good ++ bad :: rest)
    = Raise (TypeError (MalformedLocal (index + length good) bad)).
Proof.
  intros Hbad. revert index; induction good as [| [k v] good IH];
    intros index; cbn.
  - rewrite Nat.add_0_r.
    destruct bad as [| | | [| [| name | | | | | |] [| value [|]]] | | | |];
      try reflexivity; discriminate.
  - rewrite IH. cbn. do 3 f_equal. lia.
Qed.

(** X16. A block whose sequence of locals has, after well-formed locals, an
    element that is not a 2-tuple with a string first is refused with a
    [TypeError] that reports the position of that element; the elements
    after it and the result are not examined. *)
Theorem Block_init_malformed_local (good : list (string * Node))
  (bad : pyobj) (rest : list pyobj) (result : pyobj) :
  is_local_declaration bad = false ->
  Block_init (locals_as_pyobj good ++ bad :: rest) result
    = Raise (TypeError (MalformedLocal (length good) bad)).
Proof.
  intros Hbad. unfold Block_init.
  rewrite (Block_locals_malformed good bad rest 0 Hbad). reflexivity.
Qed.

Lemma Block_init_malformed_local_witness :
  Block_init (locals_as_pyobj [("a", Examples.r_int); ("b", Examples.r_bool)]
              ++ PyTuple [PyStr "c"] :: [PyInt 0]) PyNone
    = Raise (TypeError (MalformedLocal 2 (PyTuple [PyStr "c"]))).
Proof.
  exact (Block_init_malformed_local
           [("a", Examples.r_int); ("b", Examples.r_bool)]
           (PyTuple [PyStr "c"]) [PyInt 0] PyNone eq_refl).
Defined.

(** X17. A block is constructed exactly from a sequence of 2-tuples of a
    string and a building block together with a result that is a building
    block; it then holds those locals in order and that result, and has the
    type of the result. *)
Theorem Block_init_constructed (local_symbols : list pyobj) (result : pyobj)
  (n : Node) :
  Block_init local_symbols result = Ok n <->
  exists locals r,
    local_symbols = locals_as_pyobj locals /\ result = PyNode r /\
    n = Block (type_signature r) locals r.
Proof.
  split.
  - unfold Block_init.
    destruct (Block_locals 0 local_symbols) as [locals |] eqn:El; cbn;
      try discriminate.
    destruct result as [| | | | | | r |]; cbn; try discriminate.
    intros H; injection H as <-. exists locals, r.
    split; [exact (Block_locals_accepted _ _ _ El) |]. split; reflexivity.
  - intros [locals [r [-> [-> ->]]]]. unfold Block_init.
    rewrite Block_locals_well_formed. reflexivity.
Qed.

(** X18. A local whose value is not a building block is refused with a
    [TypeError] as well, before the locals after it are examined. *)
Theorem Block_init_local_value (good : list (string * Node)) (name : string)
  (value : pyobj) (rest : list pyobj) (result : pyobj) :
  (forall n, value <> PyNode n) ->
  Block_init (locals_as_pyobj good ++ PyTuple [PyStr name; value] :: rest)
             result
    = Raise (TypeError (NotAnInstance value "ComputationBuildingBlock")).
Proof.
  intros Hv. unfold Block_init.
  assert (E : forall index,
            Block_locals index
              (locals_as_pyobj good ++ PyTuple [PyStr name; value] :: rest)
            = Raise (TypeError
                       (NotAnInstance value "ComputationBuildingBlock"))).
  { induction good as [| [k v] good IH]; intros index; cbn.
    - destruct value; try reflexivity. now destruct (Hv n).
    - rewrite IH. reflexivity. }
  rewrite E. reflexivity.
Qed.

Lemma Block_init_local_value_witness :
  Block_init (locals_as_pyobj [("a", Examples.r_int)]
              ++ PyTuple [PyStr "b"; PyStr "v"] :: [PyInt 0]) PyNone
    = Raise (TypeError (NotAnInstance (PyStr "v") "ComputationBuildingBlock")).
Proof.
  apply (Block_init_local_value [("a", Examples.r_int)] "b" (PyStr "v")).
  discriminate.
Defined.

Lemma Block_init_constructed_witness :
  Block_init (locals_as_pyobj [("a", Examples.r_int)]) (PyNode Examples.r_bool)
    = Ok (Block (type_signature Examples.r_bool) [("a", Examples.r_int)]
                Examples.r_bool).
Proof.
  apply (proj2 (Block_init_constructed _ _ _)).
  exists [("a", Examples.r_int)], Examples.r_bool. repeat split.
Defined.

(** ** Lambda, Intrinsic and Data *)

(** X19. A lambda is constructed exactly from a text name, a non-null
    parameter type and a result that is a building block; it then holds the
    three, and its type is the function type from the parameter type to the
    type of the result. *)
Theorem Lambda_init_constructed (parameter_name : pyobj)
  (parameter_type : option Type_) (result : pyobj) (n : Node) :
  Lambda_init parameter_name parameter_type result = Ok n <->
  exists name T r,
    parameter_name = PyStr name /\ parameter_type = Some T /\
    result = PyNode r /\
    n = Lambda (Some (FunctionType (Some T) (type_signature r))) name T r.
Proof.
  split.
  - unfold Lambda_init.
    destruct parameter_name as [| name | | | | | |]; cbn; try discriminate.
    destruct parameter_type as [T |]; cbn; try discriminate.
    destruct result as [| | | | | | r |]; cbn; try discriminate.
    intros H; injection H as <-. exists name, T, r. repeat split.
  - intros [name [T [r [-> [-> [-> ->]]]]]]. reflexivity.
Qed.

Lemma Lambda_init_constructed_witness :
  Lambda_init (PyStr "x") (Some Examples.int32) (PyNode Examples.r_bool)
    = Ok Examples.lam.
Proof.
  apply (proj2 (Lambda_init_constructed _ _ _ _)).
  exists "x", Examples.int32, Examples.r_bool. repeat split.
Defined.

(** X20. The checks of [Lambda.__init__] in their order: a name that is
    not text is refused whatever the rest; with a text name a null
    parameter type is refused whatever the result; then a result that is not
    a building block is refused. Each is a [TypeError], and the assertion on
    the converted parameter type never fails. *)
Theorem Lambda_init_refused (parameter_type : option Type_) (result : pyobj) :
  (forall parameter_name, (forall s, parameter_name <> PyStr s) ->
     Lambda_init parameter_name parameter_type result
       = Raise (TypeError (NotAnInstance parameter_name "string_types"))) /\
  (forall name : string,
     Lambda_init (PyStr name) None result
       = Raise (TypeError LambdaWithoutParameterType)) /\
  (forall (name : string) (T : Type_), (forall r, result <> PyNode r) ->
     Lambda_init (PyStr name) (Some T) result
       = Raise (TypeError (NotAnInstance result "ComputationBuildingBlock"))) /\
  (forall parameter_name,
     Lambda_init parameter_name parameter_type result <> Raise AssertionError).
Proof.
  split; [| split; [| split]].
  - intros parameter_name Hn.
    destruct parameter_name; try reflexivity. now destruct (Hn s).
  - reflexivity.
  - intros name T Hr. destruct result; try reflexivity. now destruct (Hr n).
  - intros parameter_name. unfold Lambda_init.
    destruct parameter_name; cbn; try discriminate.
    destruct parameter_type; cbn; try discriminate.
    destruct result; cbn; discriminate.
Qed.

Lemma Lambda_init_refused_witness :
  Lambda_init PyNone None (PyInt 0)
    = Raise (TypeError (NotAnInstance PyNone "string_types")) /\
  Lambda_init (PyStr "x") (Some Examples.int32) (PyInt 0)
    = Raise (TypeError (NotAnInstance (PyInt 0) "ComputationBuildingBlock")).
Proof.
  split.
  - apply (proj1 (Lambda_init_refused None (PyInt 0))). discriminate.
  - apply (proj1 (proj2 (proj2 (Lambda_init_refused None (PyInt 0))))).
    discriminate.
Defined.

(** X21. An intrinsic is constructed exactly from a text URI, which may be
    empty, and a non-null type; it then has that type and renders as the
    URI. With a text URI and no type it is refused with a [TypeError], with
    a URI that is not text it is refused whatever the type. *)
Theorem Intrinsic_init_constructed (uri : pyobj) (type_spec : option Type_) :
  (forall n,
     Intrinsic_init uri type_spec = Ok n <->
     exists u t, uri = PyStr u /\ type_spec = Some t /\
                 n = Intrinsic (Some t) u /\ str n = u) /\
  (forall u, uri = PyStr u -> type_spec = None ->
     Intrinsic_init uri type_spec
       = Raise (TypeError (CreatedWithoutType u))) /\
  ((forall u, uri <> PyStr u) ->
     Intrinsic_init uri type_spec
       = Raise (TypeError (NotAnInstance uri "string_types"))).
Proof.
  split; [| split].
  - intros n. split.
    + unfold Intrinsic_init. destruct uri as [| u | | | | | |]; cbn;
        try discriminate.
      destruct type_spec as [t |]; try discriminate.
      intros H; injection H as <-. exists u, t. repeat split.
    + intros [u [t [-> [-> [-> _]]]]]. reflexivity.
  - intros u -> ->. reflexivity.
  - intros Hu. destruct uri; try reflexivity. now destruct (Hu s).
Qed.

Lemma Intrinsic_init_constructed_witness :
  Intrinsic_init (PyStr "") (Some Examples.int32)
    = Ok (Intrinsic (Some Examples.int32) "") /\
  Intrinsic_init (PyStr "add") None
    = Raise (TypeError (CreatedWithoutType "add")) /\
  Intrinsic_init (PyInt 1) None
    = Raise (TypeError (NotAnInstance (PyInt 1) "string_types")).
Proof.
  split; [| split].
  - apply (proj1 (Intrinsic_init_constructed (PyStr "") (Some Examples.int32))).
    exists "", Examples.int32. repeat split.
  - exact (proj1 (proj2 (Intrinsic_init_constructed (PyStr "add") None))
             "add" eq_refl eq_refl).
  - apply (proj2 (proj2 (Intrinsic_init_constructed (PyInt 1) None))).
    discriminate.
Defined.

(** X22. [Data.__init__] accepts and refuses exactly what
    [Intrinsic.__init__] does, with the same exception: without a type the
    message is the one of the intrinsic. What it constructs has the type
    given and renders as the URI. *)
Theorem Data_init_as_Intrinsic (uri : pyobj) (type_spec : option Type_) :
  (forall e, Data_init uri type_spec = Raise e <->
             Intrinsic_init uri type_spec = Raise e) /\
  (forall n,
     Data_init uri type_spec = Ok n <->
     exists u t, uri = PyStr u /\ type_spec = Some t /\
                 n = Data (Some t) u /\ str n = u).
Proof.
  split.
  - intros e. unfold Data_init, Intrinsic_init.
    destruct uri; cbn; try tauto. destruct type_spec; [| tauto].
    split; discriminate.
  - intros n. split.
    + unfold Data_init. destruct uri as [| u | | | | | |]; cbn;
        try discriminate.
      destruct type_spec as [t |]; try discriminate.
      intros H; injection H as <-. exists u, t. repeat split.
    + intros [u [t [-> [-> [-> _]]]]]. reflexivity.
Qed.

Lemma Data_init_as_Intrinsic_witness :
  Data_init (PyStr "d") None = Raise (TypeError (CreatedWithoutType "d")) /\
  Data_init (PyStr "d") (Some Examples.int32)
    = Ok (Data (Some Examples.int32) "d").
Proof.
  split.
  - apply (proj1 (Data_init_as_Intrinsic (PyStr "d") None)). reflexivity.
  - apply (proj2 (Data_init_as_Intrinsic (PyStr "d") (Some Examples.int32))).
    exists "d", Examples.int32. repeat split.
Defined.

(** ** CompiledComputation: the default name read back, and the checks *)

(** What [{:x}] writes reads back as the number written. *)
Lemma parse_format_x (n : Z) : parse_x (format_x n) = Some n.
Proof.
  unfold parse_x, format_x.
  rewrite HexadecimalString.NilZero.isi.
  - cbn. f_equal. apply HexadecimalZ.of_to.
  - destruct n; cbn; try discriminate.
    intros H; injection H as H.
    exact (HexadecimalPos.Unsigned.to_uint_nonnil _ H).
  - destruct n; cbn; try discriminate.
    intros H; injection H as H.
    exact (HexadecimalPos.Unsigned.to_uint_nonnil _ H).
Qed.

(** X23. On Python 2, where [repr()] returns a byte string: whenever the
    types of two payloads with the same [repr()] deserialize, both
    constructions without a name succeed with the same default name; it is
    a numeral in lowercase hexadecimal which, read back, is the value of
    [zlib.adler32] on that [repr()] taken modulo [2^32], that is the
    unsigned checksum, whatever the sign of the value returned. *)
Theorem CompiledComputation_init_default_name {cap : TypeCapability}
  (p1 p2 : Computation) (t1 t2 : option Type_) :
  repr_Computation p1 = repr_Computation p2 ->
  deserialize_type (proto_type p1) = Ok t1 ->
  deserialize_type (proto_type p2) = Ok t2 ->
  exists name,
    CompiledComputation_init Python2 (PyProto p1) PyNone
      = Ok (CompiledComputation t1 p1 name) /\
    CompiledComputation_init Python2 (PyProto p2) PyNone
      = Ok (CompiledComputation t2 p2 name) /\
    lower_hex name = true /\
    parse_x name = Some (Adler32.adler32 (repr_Computation p1) mod 2 ^ 32) /\
    Adler32.adler32 (repr_Computation p1) mod 2 ^ 32
      = Adler32.unsigned (repr_Computation p1) /\
    0 <= Adler32.unsigned (repr_Computation p1) <= 0xFFFFFFFF.
Proof.
  intros Hrepr H1 H2.
  pose proof (Adler32_unsigned_range (repr_Computation p1)) as Hu.
  pose proof (adler32_masked (repr_Computation p1)) as Hm.
  assert (Hmod : Z.land (Adler32.adler32 (repr_Computation p1)) 0xFFFFFFFF
                 = Adler32.adler32 (repr_Computation p1) mod 2 ^ 32).
  { change 0xFFFFFFFF with (Z.ones 32). apply Z.land_ones. lia. }
  exists (format_x (Z.land (Adler32.adler32 (repr_Computation p1))
                           0xFFFFFFFF)).
  split; [| split; [| split; [| split; [| split]]]].
  - unfold CompiledComputation_init; cbn. rewrite H1. reflexivity.
  - unfold CompiledComputation_init; cbn. rewrite H2, Hrepr. reflexivity.
  - apply format_x_lower_hex. rewrite Hm. lia.
  - rewrite parse_format_x, Hmod. reflexivity.
  - rewrite <- Hmod. exact Hm.
  - lia.
Qed.

Lemma CompiledComputation_init_default_name_witness :
  exists name,
    @CompiledComputation_init Examples.cap Python2 (PyProto Examples.wiki)
       PyNone
      = Ok (CompiledComputation (Some Examples.int32) Examples.wiki name) /\
    @CompiledComputation_init Examples.cap Python2
       (PyProto (mkComputation "Wikip" "edia")) PyNone
      = Ok (CompiledComputation (Some Examples.int32)
              (mkComputation "Wikip" "edia") name) /\
    lower_hex name = true /\
    parse_x name = Some (Adler32.adler32 "Wikipedia" mod 2 ^ 32) /\
    Adler32.adler32 "Wikipedia" mod 2 ^ 32 = Adler32.unsigned "Wikipedia" /\
    0 <= Adler32.unsigned "Wikipedia" <= 0xFFFFFFFF.
Proof.
  exact (@CompiledComputation_init_default_name Examples.cap Examples.wiki
           (mkComputation "Wikip" "edia") (Some Examples.int32)
           (Some Examples.int32) eq_refl eq_refl eq_refl).
Defined.

(** X24. The checks of [CompiledComputation.__init__] in their order, on
    either interpreter: a payload that is not a [pb.Computation] is refused
    whatever the name; a name that is neither [None] nor text is refused
    before the type is deserialized; a failure of the deserialization is
    passed on as it is. *)
Theorem CompiledComputation_init_refused {cap : TypeCapability}
  (py : Interpreter) :
  (forall proto name, (forall p, proto <> PyProto p) ->
     CompiledComputation_init py proto name
       = Raise (TypeError (NotAnInstance proto "pb.Computation"))) /\
  (forall p name, name <> PyNone -> (forall s, name <> PyStr s) ->
     CompiledComputation_init py (PyProto p) name
       = Raise (TypeError (NotAnInstance name "string_types"))) /\
  (forall p name e, name = PyNone \/ (exists s, name = PyStr s) ->
     deserialize_type (proto_type p) = Raise e ->
     CompiledComputation_init py (PyProto p) name = Raise e).
Proof.
  split; [| split].
  - intros proto name Hp. destruct proto; try reflexivity.
    now destruct (Hp p).
  - intros p name Hnone Hstr.
    destruct name; try reflexivity; [contradiction | now destruct (Hstr s)].
  - intros p name e [-> | [s ->]] Hd;
      unfold CompiledComputation_init; cbn; rewrite Hd; reflexivity.
Qed.

Lemma CompiledComputation_init_refused_witness :
  @CompiledComputation_init Examples.cap Python3 (PyStr "p") (PyInt 0)
    = Raise (TypeError (NotAnInstance (PyStr "p") "pb.Computation")) /\
  @CompiledComputation_init Examples.cap Python3 (PyProto Examples.wiki)
     (PyInt 0)
    = Raise (TypeError (NotAnInstance (PyInt 0) "string_types")) /\
  @CompiledComputation_init Examples.failing_cap Python3
     (PyProto Examples.wiki) PyNone
    = Raise (ForeignError "deserialize_type").
Proof.
  split; [| split].
  - apply (proj1 (@CompiledComputation_init_refused Examples.cap Python3)).
    discriminate.
  - apply (proj1 (proj2 (@CompiledComputation_init_refused Examples.cap
                           Python3)));
      discriminate.
  - apply (proj2 (proj2 (@CompiledComputation_init_refused
                           Examples.failing_cap Python3)));
      [now left | reflexivity].
Defined.

(** ** Trees built by the constructors *)

Lemma fst_field_of (e : option string * Node) :
  fst (field_of e) = match fst e with
                     | Some "" => None
                     | name => name
                     end.
Proof.
  destruct e as [[s |] v]; unfold field_of, type_element; cbn;
    [| reflexivity].
  destruct (String.eqb_spec s "") as [-> | Hs]; cbn; [reflexivity |].
  destruct s; [contradiction | reflexivity].
Qed.

(** X25. In every tree that comes out of the constructors alone, to any
    depth and on either interpreter, the type of each node is the one
    derived from its children: the type of a selection is that of the field
    or element selected, the type of a tuple has one field per element, in
    order, with the child's type and the element's name (unnamed where that
    name is the empty string), the type of a call is the result type of its
    function, with an assignable argument exactly when the function has a
    parameter, the type of a lambda is the function type to the type of its
    body, and the type of a block is that of its result. *)
Theorem Built_Consistent {cap : TypeCapability} (py : Interpreter)
  (n : Node) :
  Built py n -> Consistent n.
Proof.
  induction 1 as
    [ name type_spec context n H
    | source name index n Hs IHs H
    | elements n H Hc IHc
    | func arg n Hf IHf Ha IHa H
    | parameter_name parameter_type result n Hr IHr H
    | local_symbols result n Hr IHr H Hl IHl
    | uri type_spec n H
    | uri type_spec n H
    | proto name n H ].
  - unfold Reference_init in H. destruct name; cbn in H; try discriminate.
    injection H as <-. constructor.
  - destruct (Selection_init_Ok _ _ _ _ H) as [src [elements [Hsrc [Ht Hn]]]].
    injection Hsrc as <-.
    destruct Hn as [[s [t [_ [_ [Hne [Hl ->]]]]]] | [i [e [_ [_ [Hi [He ->]]]]]]].
    + eapply Consistent_Selection_name; eassumption.
    + eapply Consistent_Selection_index; try eassumption. lia.
  - destruct (Tuple_init_Ok _ _ H) as [elems [_ [Hnd ->]]].
    constructor; [exact IHc | exact Hnd | |]; rewrite map_map; apply map_ext.
    + exact snd_field_of.
    + exact fst_field_of.
  - destruct (Call_init_Ok _ _ _ H) as [f [P [R [Hfn [Ht Hn]]]]].
    injection Hfn as <-.
    destruct Hn as [[p [a [-> [-> [Has ->]]]]] | [-> [_ ->]]].
    + eapply Consistent_Call_argument; try eassumption.
      apply IHa. reflexivity.
    + apply Consistent_Call; assumption.
  - unfold Lambda_init in H.
    destruct parameter_name; cbn in H; try discriminate.
    destruct parameter_type; cbn in H; try discriminate.
    injection H as <-. constructor. exact IHr.
  - unfold Block_init in H.
    destruct (Block_locals 0 local_symbols) as [locals |]; cbn in H;
      try discriminate.
    injection H as <-. constructor; [exact IHl | exact IHr].
  - unfold Intrinsic_init in H. destruct uri; cbn in H; try discriminate.
    destruct type_spec; try discriminate. injection H as <-. constructor.
  - unfold Data_init in H. destruct uri; cbn in H; try discriminate.
    destruct type_spec; try discriminate. injection H as <-. constructor.
  - unfold CompiledComputation_init in H.
    destruct proto; cbn in H; try discriminate.
    destruct (if negb (is_None name) then _ else _) as [given |];
      cbn in H; try discriminate.
    destruct (deserialize_type (proto_type p)); cbn in H; try discriminate.
    destruct (match given with Some _ => _ | None => _ end); cbn in H;
      try discriminate.
    injection H as <-. constructor.
Qed.

Lemma Built_Consistent_witness :
  @Consistent Examples.cap
    (Selection (Some Examples.int32) Examples.tup (Some "x") None).
Proof.
  apply (@Built_Consistent Examples.cap Python3).
  apply (@Built_Selection Examples.cap Python3 Examples.tup (PyStr "x") PyNone);
    [| reflexivity].
  apply (@Built_Tuple Examples.cap Python3
           [PyTuple [PyStr "x"; PyNode Examples.r_int];
            PyNode Examples.r_bool]); [reflexivity |].
  intros e [<- | [<- | []]].
  - apply (@Built_Reference Examples.cap Python3 (PyStr "r")
             (Some Examples.int32) None). reflexivity.
  - apply (@Built_Reference Examples.cap Python3 (PyStr "b")
             (Some Examples.bool_) None). reflexivity.
Defined.
